(** * kaos_cli.facades.backend_facade: the provisioning lifecycle facade

    A shallow embedding of [src/cli/kaos_cli/facades/backend_facade.py]
    and the properties of its [build], [destroy], [_tf_init],
    [_parse_config] and [_get_vars] operations. *)

From Stdlib Require Import ZArith Ascii String List Bool Lia.
From stdpp Require Import gmap strings list fin_maps pretty.

Set Warnings "-register-all".
Local Open Scope string_scope.
Local Open Scope list_scope.
Local Open Scope Z_scope.

(** ** Python values *)

(** A Python [float]: the finite value [m * 2^e], an infinity, or
    not-a-number.  Every IEEE double is one of these. *)
Inductive pyfloat : Type :=
| Finite (m e : Z)
| Infinity (negative : bool)
| NaN.

(** The values [json.load] produces, which are also the values the facade
    hands to the state service.  A JSON number without fraction or
    exponent is an [int], any other a [float].  A string is the sequence
    of its bytes in UTF-8.  A dict is an association list; [dict_get]
    reads the first binding of a key. *)
Inductive json : Type :=
| JNull
| JBool (b : bool)
| JInt (z : Z)
| JFloat (x : pyfloat)
| JStr (s : string)
| JArr (items : list json)
| JObj (fields : list (string * json)).

(** What a Python statement can raise in this module. *)
Inductive exn : Type :=
| HostnameError (msg : string)
| KeyError (key : string)
| IndexError
| TypeError
| AttributeError
| ValueError
| OverflowError
| FileNotFoundError (path : string)
| IsADirectoryError (path : string)
| PermissionError (path : string)
| MissingSchema
| JSONDecodeError
| DistutilsFileError
| ConnectionError
| EnvironmentError
| ProvisioningError.

Inductive outcome (A : Type) : Type :=
| Ret (a : A)
| Raise (e : exn).
Arguments Ret {A} a.
Arguments Raise {A} e.

#[global] Instance outcome_ret : MRet outcome := @Ret.

#[global] Instance outcome_bind : MBind outcome := fun A B k o =>
  match o with
  | Ret a => k a
  | Raise e => Raise e
  end.

Fixpoint dict_get (key : string) (fields : list (string * json)) : option json :=
  match fields with
  | [] => None
  | (k, v) :: rest => if String.eqb k key then Some v else dict_get key rest
  end.

(** [bool(v)] *)
Definition truthy (v : json) : bool :=
  match v with
  | JNull => false
  | JBool b => b
  | JInt z => negb (z =? 0)
  | JFloat (Finite m _) => negb (m =? 0)
  | JFloat _ => true
  | JStr s => negb (String.eqb s "")
  | JArr items => match items with [] => false | _ => true end
  | JObj fields => match fields with [] => false | _ => true end
  end.

(** [a or b] *)
Definition py_or (a b : json) : json := if truthy a then a else b.

(** [d.get(key)]: [None] when the key is missing, [AttributeError] when
    [d] has no [get]. *)
Definition py_get (d : json) (key : string) : outcome json :=
  match d with
  | JObj fields => Ret (default JNull (dict_get key fields))
  | _ => Raise AttributeError
  end.

(** [d[key]] with a string key. *)
Definition py_item (d : json) (key : string) : outcome json :=
  match d with
  | JObj fields =>
      match dict_get key fields with
      | Some v => Ret v
      | None => Raise (KeyError key)
      end
  | _ => Raise TypeError
  end.

(** [v[0]] *)
Definition py_first (v : json) : outcome json :=
  match v with
  | JArr (x :: _) => Ret x
  | JArr [] => Raise IndexError
  | JStr (String c _) => Ret (JStr (String c ""))
  | JStr EmptyString => Raise IndexError
  | JObj _ => Raise (KeyError "0")
  | _ => Raise TypeError
  end.

(** *** [int(...)] *)

(** The white space [int] skips in an ASCII string: tab, line feed,
    vertical tab, form feed, carriage return and space. *)
Definition is_space (c : ascii) : bool :=
  let n := nat_of_ascii c in
  ((9 <=? n) && (n <=? 13) || (n =? 32))%nat.

(** All characters of the string are ASCII. *)
Fixpoint is_ascii (s : string) : bool :=
  match s with
  | EmptyString => true
  | String c rest => (nat_of_ascii c <? 128)%nat && is_ascii rest
  end.

Fixpoint lstrip (s : string) : string :=
  match s with
  | String c rest => if is_space c then lstrip rest else s
  | EmptyString => s
  end.

Definition digit_of (c : ascii) : option Z :=
  let n := nat_of_ascii c in
  if ((48 <=? n) && (n <=? 57))%nat then Some (Z.of_nat n - 48) else None.

(** Digits of a numeral, most significant first.  [after_digit] tells
    whether the previous character was a digit: an underscore is accepted
    only between two digits, and trailing white space ends the numeral. *)
Fixpoint digits_from (after_digit : bool) (acc : Z) (s : string) : option Z :=
  match s with
  | EmptyString => if after_digit then Some acc else None
  | String c rest =>
      match digit_of c with
      | Some d => digits_from true (10 * acc + d) rest
      | None =>
          if after_digit then
            if Ascii.eqb c "_" then
              match rest with
              | String c' _ =>
                  match digit_of c' with
                  | Some _ => digits_from false acc rest
                  | None => None
                  end
              | EmptyString => None
              end
            else if String.eqb (lstrip s) "" then Some acc else None
          else None
      end
  end.

(** [int(s)] for an ASCII string, in base 10. *)
Definition int_of_str (s : string) : option Z :=
  match lstrip s with
  | String "-" rest => Z.opp <$> digits_from false 0 rest
  | String "+" rest => digits_from false 0 rest
  | body => digits_from false 0 body
  end.

(** [int(x)] for a float: the value with its fraction cut off. *)
Definition int_of_float (x : pyfloat) : outcome Z :=
  match x with
  | Finite m e => Ret (if 0 <=? e then m * 2 ^ e else Z.quot m (2 ^ (- e)))
  | Infinity _ => Raise OverflowError
  | NaN => Raise ValueError
  end.

(** [int(v)].  In a string that is not ASCII Python also takes the
    decimal digits and the white space of other scripts, which the bytes
    do not show: what [int] makes of such a string is the parameter
    [int_unicode]. *)
Definition py_int (int_unicode : string -> option Z) (v : json) : outcome Z :=
  match v with
  | JInt z => Ret z
  | JBool b => Ret (if b then 1 else 0)
  | JFloat x => int_of_float x
  | JStr s =>
      match (if is_ascii s then int_of_str s else int_unicode s) with
      | Some z => Ret z
      | None => Raise ValueError
      end
  | _ => Raise TypeError
  end.

(** *** String formatting *)

(** [f"{z}"] for an integer. *)
Definition str_of_int (z : Z) : string := pretty z.

(** [f"{v}"].  The text of a float, a list or a dict is Python's [repr],
    which is left to the parameter [repr]. *)
Definition py_str (repr : json -> string) (v : json) : string :=
  match v with
  | JNull => "None"
  | JBool true => "True"
  | JBool false => "False"
  | JInt z => str_of_int z
  | JStr s => s
  | _ => repr v
  end.

(** [f"{v}"] for what [os.getenv] or [dict.get] of strings returns. *)
Definition str_of_opt (v : option string) : string := default "None" v.


(** ** The file system *)

(** A path holds a directory or a file.  A file is known by what
    [json.load] makes of it: [None] when it is not a JSON document. *)
Inductive node : Type :=
| Dir
| File (doc : option json).

(** [p] is [d] or lies below it. *)
Definition is_under (d p : string) : bool :=
  String.eqb p d || String.prefix (d +:+ "/") p.

(** [os.path.isdir(p)] *)
Definition isdir (p : string) (fs : gmap string node) : bool :=
  match fs !! p with
  | Some Dir => true
  | _ => false
  end.

(** [os.path.exists(p)] *)
Definition path_exists (p : string) (fs : gmap string node) : bool :=
  match fs !! p with
  | Some _ => true
  | None => false
  end.

(** [shutil.rmtree(d, ignore_errors=True)].  When [d] is a directory its
    tree is removed as far as it can be: the paths that cannot be removed
    (no permission, a directory that cannot be emptied), given by
    [undeletable], stay in place and the failure is ignored.  Any other
    [d] is an error, which is ignored too. *)
Definition rmtree (undeletable : string -> bool) (d : string)
    (fs : gmap string node) : gmap string node :=
  if isdir d fs
  then filter (fun kv => is_under d kv.1 = false \/ undeletable kv.1 = true) fs
  else fs.

(** [os.remove(p)]: it raises for a path that is not there, for a
    directory, and for a file that cannot be removed. *)
Definition os_remove (undeletable : string -> bool) (p : string)
    (fs : gmap string node) : outcome (gmap string node) :=
  match fs !! p with
  | Some (File _) =>
      if undeletable p then Raise (PermissionError p) else Ret (delete p fs)
  | Some Dir => Raise (IsADirectoryError p)
  | None => Raise (FileNotFoundError p)
  end.

(** [json.load(open(p))] *)
Definition json_load (p : string) (fs : gmap string node) : outcome json :=
  match fs !! p with
  | Some (File (Some doc)) => Ret doc
  | Some (File None) => Raise JSONDecodeError
  | Some Dir => Raise (IsADirectoryError p)
  | None => Raise (FileNotFoundError p)
  end.

(** ** The state service *)

(** Modelled from the spec: [kaos_cli.services.state_service.StateService],
    the "state persistence collaborator" of the external interfaces:
    [isCreated() -> bool], [create()], [delete()], [write()],
    [has(section) -> bool], [get(section, key) -> value] and
    [set(section, **kv)], "backed by a structured config file at a fixed
    project-relative path".  [config] is the structure held in memory,
    [stored] the backing file, [None] while it does not exist. *)
Record StateService : Type := {
  config : gmap string (gmap string json);
  stored : option (gmap string (gmap string json))
}.

Module StateService.

(** The backing file exists. *)
Definition is_created (s : StateService) : bool :=
  match stored s with
  | Some _ => true
  | None => false
  end.

(** Brings the backing file into being, empty. *)
Definition create (s : StateService) : StateService :=
  {| config := config s; stored := Some ∅ |}.

(** Removes the backing file. *)
Definition delete (s : StateService) : StateService :=
  {| config := config s; stored := None |}.

(** Saves the structure held in memory to the backing file. *)
Definition write (s : StateService) : StateService :=
  {| config := config s; stored := Some (config s) |}.

(** [has(section)] *)
Definition has_section (section : string) (s : StateService) : bool :=
  match config s !! section with
  | Some _ => true
  | None => false
  end.

(** [get(section, key)], [None] for what is not there. *)
Definition get (section key : string) (s : StateService) : json :=
  default JNull (config s !! section ≫= fun sec => sec !! key).

(** [set(section, **kv)]: the keys of [kv] are set in the section, its other
    keys stay. *)
Definition set (section : string) (kv : list (string * json))
    (s : StateService) : StateService :=
  {| config := <[section := list_to_map kv ∪ default ∅ (config s !! section)]> (config s);
     stored := stored s |}.

End StateService.

(** ** Collaborators and the world the facade runs in *)

(** A call to [kaos_cli.services.terraform_service.TerraformService]. *)
Inductive TfCall : Type :=
| SetVerbose (verbose : bool)
| TfInit (directory : option string)
| ExistsWorkspace (directory env : string)
| NewWorkspace (directory env : string)
| SelectWorkspace (directory env : string)
| Plan (directory : option string) (extra_vars : string)
| Apply (directory : option string) (extra_vars : string)
| Destroy (directory : option string) (extra_vars : string).

(** A call that changes the state service. *)
Inductive StateCall : Type :=
| Create
| Delete
| Write
| SetSection (section : string) (kv : list (string * json)).

(** Every call the facade makes to the outside, in the order made.
    [RequestsDelete url] is the call [requests.delete(url)], whether or not
    a request leaves the machine. *)
Inductive Event : Type :=
| CheckEnvironment (provider : string)
| Tf (call : TfCall)
| State (call : StateCall)
| CopyTree (src dst : string)
| ShutilCopy (src : option string) (dst : string)
| RequestsDelete (url : string)
| Rmtree (directory : string)
| OsRemove (path : string).

Record World : Type := {
  fs : gmap string node;
  state_service : StateService;
  calls : list Event
}.

(** The names imported from [kaos_cli.constants]. *)
Record Constants : Type := {
  DOCKER : string;
  MINIKUBE : string;
  AWS : string;
  GCP : string;
  BACKEND : string;
  INFRASTRUCTURE : string;
  TF_DIR : string;
  TF_STATE : string;
  TF_STATE_BACKUP : string;
  TF_CONFIG_JSON : string;
  PROVIDER_DICT : gmap string string;
  LOCAL_CONFIG_DICT : gmap string string
}.

(** What one invocation finds outside the module.  A call of the
    infrastructure engine, of [copy_tree] or of [shutil.copy] turns the
    file system into another one, or raises ([None]);
    [requests.delete] answers with a status code, or raises, before or
    after anything was sent. *)
Record Externals : Type := {
  cwd : string;
  environ : gmap string string;
  uuid4 : string;
  repr : json -> string;
  int_unicode : string -> option Z;
  undeletable : string -> bool;
  check_environment : string -> bool;
  terraform : TfCall -> gmap string node -> option (gmap string node);
  exists_workspace : string -> string -> gmap string node -> option bool;
  copy_tree : string -> string -> gmap string node -> option (gmap string node);
  shutil_copy : option string -> string -> gmap string node -> option (gmap string node);
  requests_delete : string -> outcome Z
}.

(** ** Statements: a state and exception monad over [World] *)

Definition M (A : Type) : Type := World -> outcome A * World.

#[global] Instance M_ret : MRet M := fun A a w => (Ret a, w).

#[global] Instance M_bind : MBind M := fun A B k m w =>
  match m w with
  | (Ret a, w1) => k a w1
  | (Raise e, w1) => (Raise e, w1)
  end.

Definition raise {A : Type} (e : exn) : M A := fun w => (Raise e, w).

Definition lift {A : Type} (o : outcome A) : M A := fun w => (o, w).

Definition log (e : Event) : M unit := fun w =>
  (Ret tt, {| fs := fs w; state_service := state_service w; calls := calls w ++ [e] |}).

Definition read_fs {A : Type} (f : gmap string node -> A) : M A :=
  fun w => (Ret (f (fs w)), w).

Definition read_state {A : Type} (f : StateService -> A) : M A :=
  fun w => (Ret (f (state_service w)), w).

Definition put_fs (fs' : gmap string node) : M unit := fun w =>
  (Ret tt, {| fs := fs'; state_service := state_service w; calls := calls w |}).

Definition update_state (f : StateService -> StateService) : M unit := fun w =>
  (Ret tt, {| fs := fs w; state_service := f (state_service w); calls := calls w |}).

(** [if b: m] *)
Definition when (b : bool) (m : M unit) : M unit := if b then m else mret tt.

(** A call that changes the file system or raises [e]. *)
Definition fs_call (e : exn) (f : gmap string node -> option (gmap string node))
  : M unit :=
  fs0 ← read_fs id;
  match f fs0 with
  | Some fs' => put_fs fs'
  | None => raise e
  end.

(** A call that changes the state service. *)
Definition state_call (c : StateCall) (f : StateService -> StateService) : M unit :=
  log (State c);; update_state f.

Section Facade.

Context (K : Constants) (X : Externals).

(** *** Calls to the collaborators *)

Definition tf (c : TfCall) : M unit :=
  log (Tf c);; fs_call ProvisioningError (terraform X c).

Definition tf_exists_workspace (directory env : string) : M bool :=
  log (Tf (ExistsWorkspace directory env));;
  r ← read_fs (exists_workspace X directory env);
  match r with
  | Some b => mret b
  | None => raise ProvisioningError
  end.

Definition do_check_environment (provider : string) : M unit :=
  log (CheckEnvironment provider);;
  if check_environment X provider then mret tt else raise EnvironmentError.

Definition do_copy_tree (src dst : string) : M unit :=
  log (CopyTree src dst);; fs_call DistutilsFileError (copy_tree X src dst).

Definition do_shutil_copy (src : option string) (dst : string) : M unit :=
  log (ShutilCopy src dst);;
  fs_call (FileNotFoundError (str_of_opt src)) (shutil_copy X src dst).

Definition do_requests_delete (url : string) : M unit :=
  log (RequestsDelete url);;
  match requests_delete X url with
  | Ret _ => mret tt
  | Raise e => raise e
  end.

(** [shutil.rmtree(d, ignore_errors=True)] *)
Definition do_rmtree (d : string) : M unit :=
  log (Rmtree d);; fs0 ← read_fs id; put_fs (rmtree (undeletable X) d fs0).

(** [os.remove(p)] *)
Definition do_os_remove (p : string) : M unit :=
  log (OsRemove p);;
  fs0 ← read_fs id;
  match os_remove (undeletable X) p fs0 with
  | Ret fs' => put_fs fs'
  | Raise e => raise e
  end.

(** [if os.path.exists(p): os.remove(p)] *)
Definition remove_if_exists (p : string) : M unit :=
  there ← read_fs (path_exists p);
  when there (do_os_remove p).

(** *** The module *)

(** [is_cloud_provider], lines 16-17. *)
Definition is_cloud_provider (cloud : string) : bool :=
  negb (String.eqb cloud (DOCKER K) || String.eqb cloud (MINIKUBE K)).

(** The [url] property, lines 30-32. *)
Definition url : M json := read_state (StateService.get (BACKEND K) "url").

(** [BackendFacade.init], lines 46-51. *)
Definition init (url token : json) : M unit :=
  created ← read_state StateService.is_created;
  when (negb created) (state_call Create StateService.create);;
  state_call (SetSection (BACKEND K) [("url", url); ("token", token)])
    (StateService.set (BACKEND K) [("url", url); ("token", token)]);;
  state_call Write StateService.write.

(** [BackendFacade._get_vars], lines 139-161. *)
Definition _get_vars (provider : string) : string :=
  let out_dir := cwd X in
  let extra_vars := "--var config_dir=" +:+ out_dir +:+ " " in
  let extra_vars :=
    if String.eqb provider (AWS K) then
      let KEY_ID := environ X !! "AWS_ACCESS_KEY_ID" in
      let SECRET_KEY := environ X !! "AWS_SECRET_ACCESS_KEY" in
      let REGION := environ X !! "AWS_DEFAULT_REGION" in
      extra_vars +:+ String.concat " " (map (fun x => "--var " +:+ x) [
        "aws_access_key_id=" +:+ str_of_opt KEY_ID;
        "aws_secret_access_key=" +:+ str_of_opt SECRET_KEY;
        "region=" +:+ str_of_opt REGION
      ])
    else extra_vars in
  let extra_vars :=
    if String.eqb provider (GCP K) then
      let GOOGLE_APPLICATION_CREDENTIALS :=
        environ X !! "GOOGLE_APPLICATION_CREDENTIALS" in
      extra_vars +:+ String.concat " " (map (fun x => "--var " +:+ x) [
        "credentials_path=" +:+ str_of_opt GOOGLE_APPLICATION_CREDENTIALS
      ])
    else extra_vars in
  extra_vars.

(** [BackendFacade._parse_config] after the file is read, lines 124-137. *)
Definition parse_raw_config (raw_config : json) : outcome (string * json) :=
  domain_value ← py_item raw_config "backend_domain" ≫= py_first;
  hostname ← py_get domain_value "hostname";
  ip ← py_get domain_value "ip";
  let domain := py_or hostname ip in
  if negb (truthy domain) then Raise (HostnameError "Hostname not present")
  else
    port ← py_item raw_config "backend_port" ≫= py_int (int_unicode X);
    path ← py_item raw_config "backend_path";
    let url := "http://" +:+ py_str (repr X) domain +:+ ":" +:+ str_of_int port
               +:+ py_str (repr X) path in
    kubeconfig ← py_item raw_config "kubeconfig";
    mret (url, kubeconfig).

(** [BackendFacade._parse_config], lines 116-137. *)
Definition _parse_config : M (string * json) :=
  loaded ← read_fs (json_load (TF_CONFIG_JSON K));
  match loaded with
  | Raise e => raise e
  | Ret raw_config => lift (parse_raw_config raw_config)
  end.

(** [BackendFacade._tf_init], lines 98-114. *)
Definition _tf_init (provider env : string) (local_backend destroying : bool)
  : M (option string) :=
  let directory := PROVIDER_DICT K !! provider in
  do_check_environment provider;;
  if is_cloud_provider provider then
    let provider_directory := str_of_opt directory +:+ "/" +:+ env in
    let directory := str_of_opt directory +:+ "/__working_" +:+ env in
    present ← read_fs (isdir directory);
    when (negb destroying || negb present)
      (do_copy_tree provider_directory directory);;
    when local_backend
      (do_shutil_copy (LOCAL_CONFIG_DICT K !! provider) directory);;
    tf (TfInit (Some directory));;
    known ← tf_exists_workspace directory env;
    when (negb known) (tf (NewWorkspace directory env));;
    tf (SelectWorkspace directory env);;
    mret (Some directory)
  else
    tf (TfInit directory);;
    mret directory.

(** [BackendFacade.build], lines 53-66. *)
Definition build (provider env : string) (local_backend verbose : bool) : M unit :=
  let extra_vars := _get_vars provider in
  tf (SetVerbose verbose);;
  directory ← _tf_init provider env local_backend false;
  tf (Plan directory extra_vars);;
  tf (Apply directory extra_vars);;
  '(url, kubeconfig) ← _parse_config;
  state_call Create StateService.create;;
  state_call (SetSection (BACKEND K) [("url", JStr url); ("token", JStr (uuid4 X))])
    (StateService.set (BACKEND K) [("url", JStr url); ("token", JStr (uuid4 X))]);;
  state_call (SetSection (INFRASTRUCTURE K) [("kubeconfig", kubeconfig)])
    (StateService.set (INFRASTRUCTURE K) [("kubeconfig", kubeconfig)]);;
  state_call Write StateService.write.

(** [BackendFacade._remove_build_files], lines 80-92. *)
Definition _remove_build_files : M unit :=
  state_call Delete StateService.delete;;
  do_rmtree (TF_DIR K);;
  remove_if_exists (TF_STATE K);;
  remove_if_exists (TF_CONFIG_JSON K);;
  remove_if_exists (TF_STATE_BACKUP K).

(** [BackendFacade._delete_resources], lines 94-96. *)
Definition _delete_resources : M unit :=
  has ← read_state (StateService.has_section (BACKEND K));
  when has
    (u ← url;
     do_requests_delete (py_str (repr X) u +:+ "/internal/resources")).

(** [BackendFacade.destroy], lines 68-75. *)
Definition destroy (provider env : string) (verbose : bool) : M unit :=
  let extra_vars := _get_vars provider in
  tf (SetVerbose verbose);;
  directory ← _tf_init provider env false true;
  _delete_resources;;
  tf (Destroy directory extra_vars);;
  _remove_build_files.

End Facade.

(** ** A concrete setting for the examples *)

Module Sample.

Definition constants : Constants := {|
  DOCKER := "DOCKER";
  MINIKUBE := "MINIKUBE";
  AWS := "AWS";
  GCP := "GCP";
  BACKEND := "backend";
  INFRASTRUCTURE := "infrastructure";
  TF_DIR := ".terraform";
  TF_STATE := "terraform.tfstate";
  TF_STATE_BACKUP := "terraform.tfstate.backup";
  TF_CONFIG_JSON := "config.json";
  PROVIDER_DICT := {[ "DOCKER" := "infra/docker"; "MINIKUBE" := "infra/minikube";
                      "AWS" := "infra/aws"; "GCP" := "infra/gcp" ]};
  LOCAL_CONFIG_DICT := {[ "AWS" := "infra/aws/local.tf"; "GCP" := "infra/gcp/local.tf" ]}
|}.

(** An output artifact whose [backend_domain] is [domains]. *)
Definition artifact_of (domains : list json) : json :=
  JObj [("backend_domain", JArr domains);
        ("backend_port", JInt 8080);
        ("backend_path", JStr "/api");
        ("kubeconfig", JStr "kube")].

(** The output artifact of the spec's example. *)
Definition artifact : json :=
  artifact_of [JObj [("hostname", JStr "h"); ("ip", JStr "1.2.3.4")]].

(** [backend_domain=[{}]] *)
Definition artifact_no_domain : json := artifact_of [JObj []].

(** An empty hostname beside an ip, and beside an empty ip. *)
Definition artifact_empty_hostname : json :=
  artifact_of [JObj [("hostname", JStr ""); ("ip", JStr "1.2.3.4")]].

Definition artifact_empty_both : json :=
  artifact_of [JObj [("hostname", JStr ""); ("ip", JStr "")]].

(** An engine whose calls all succeed; [apply] leaves [doc] as the
    output artifact and a state file, [destroy] a state backup. *)
Definition engine (doc : json) (c : TfCall) (files : gmap string node)
  : option (gmap string node) :=
  match c with
  | TfInit _ => Some (<[".terraform" := Dir]> (<[".terraform/plugins" := Dir]> files))
  | Apply _ _ =>
      Some (<["config.json" := File (Some doc)]>
              (<["terraform.tfstate" := File None]> files))
  | Destroy _ _ => Some (<["terraform.tfstate.backup" := File None]> files)
  | _ => Some files
  end.

(** An engine that fails at [destroy]. *)
Definition engine_failing_destroy (doc : json) (c : TfCall) (files : gmap string node)
  : option (gmap string node) :=
  match c with
  | Destroy _ _ => None
  | _ => engine doc c files
  end.

Definition credentials : gmap string string :=
  {[ "AWS_ACCESS_KEY_ID" := "abc"; "AWS_SECRET_ACCESS_KEY" := "xyz";
     "AWS_DEFAULT_REGION" := "us" ]}.

Definition externals_of (vars : gmap string string)
    (tf : TfCall -> gmap string node -> option (gmap string node))
    (http : string -> outcome Z) : Externals := {|
  cwd := "/home/op/project";
  environ := vars;
  uuid4 := "3f2b8c1e-5d4a-4e1b-9c7a-0a1b2c3d4e5f";
  repr := fun _ => "[...]";
  int_unicode := fun _ => None;
  undeletable := fun _ => false;
  check_environment := fun _ => true;
  terraform := tf;
  exists_workspace := fun _ _ _ => Some false;
  copy_tree := fun src dst files =>
    if isdir src files then Some (<[dst := Dir]> files) else None;
  shutil_copy := fun _ _ files => Some files;
  requests_delete := http
|}.

(** Credentials set, an engine that succeeds, a backend that answers. *)
Definition externals : Externals :=
  externals_of credentials (engine artifact) (fun _ => Ret 200).

(** The same with a backend that cannot be reached. *)
Definition externals_unreachable : Externals :=
  externals_of credentials (engine artifact) (fun _ => Raise ConnectionError).

(** The same with an engine that fails at [destroy]. *)
Definition externals_failing_destroy : Externals :=
  externals_of credentials (engine_failing_destroy artifact) (fun _ => Ret 200).



(** The same with a tree at [.terraform] that cannot be removed. *)
Definition externals_stuck_tree : Externals := {|
  cwd := cwd externals;
  environ := environ externals;
  uuid4 := uuid4 externals;
  repr := repr externals;
  int_unicode := int_unicode externals;
  undeletable := fun p => is_under ".terraform" p;
  check_environment := check_environment externals;
  terraform := terraform externals;
  exists_workspace := exists_workspace externals;
  copy_tree := copy_tree externals;
  shutil_copy := shutil_copy externals;
  requests_delete := requests_delete externals
|}.

(** The same with an engine whose output names no domain. *)
Definition externals_no_domain : Externals :=
  externals_of credentials (engine artifact_no_domain) (fun _ => Ret 200).

(** A fresh checkout: the provider templates and nothing else. *)
Definition checkout : World := {|
  fs := {[ "infra/aws/dev" := Dir; "infra/aws/dev/main.tf" := File None;
           "infra/docker" := Dir ]};
  state_service := {| config := ∅; stored := None |};
  calls := []
|}.

(** The checkout after a build that left [doc] as its output artifact:
    state written, artifacts in place. *)
Definition deployed_with (doc : json) : World := {|
  fs := {[ "infra/aws/dev" := Dir; "infra/aws/dev/main.tf" := File None;
           "infra/docker" := Dir;
           "infra/aws/__working_dev" := Dir;
           ".terraform" := Dir; ".terraform/plugins" := Dir;
           "terraform.tfstate" := File None;
           "config.json" := File (Some doc) ]};
  state_service :=
    {| config := {[ "backend" := {[ "url" := JStr "http://h:8080/api";
                                    "token" := JStr "t" ]};
                    "infrastructure" := {[ "kubeconfig" := JStr "kube" ]} ]};
       stored := Some {[ "backend" := {[ "url" := JStr "http://h:8080/api";
                                         "token" := JStr "t" ]};
                         "infrastructure" := {[ "kubeconfig" := JStr "kube" ]} ]} |};
  calls := []
|}.

Definition deployed : World := deployed_with artifact.

End Sample.

(** ** Vocabulary of the properties *)


(** The part of [build] before endpoint resolution, lines 54-59. *)
Definition provision (K : Constants) (X : Externals) (provider env : string)
    (local_backend verbose : bool) : M unit :=
  let extra_vars := _get_vars K X provider in
  tf X (SetVerbose verbose);;
  directory ← _tf_init K X provider env local_backend false;
  tf X (Plan directory extra_vars);;
  tf X (Apply directory extra_vars).

(** The part of [destroy] before the cleanup request, lines 69-72. *)
Definition prepare_destroy (K : Constants) (X : Externals) (provider env : string)
    (verbose : bool) : M (option string) :=
  tf X (SetVerbose verbose);;
  _tf_init K X provider env false true.

Definition is_state_call (e : Event) : bool :=
  match e with
  | State _ => true
  | _ => false
  end.

Definition is_copy_tree (e : Event) : bool :=
  match e with
  | CopyTree _ _ => true
  | _ => false
  end.

(** The calls of workspace preparation and of the engine's verbosity,
    plan and apply: neither a cleanup request nor a destroy. *)
Definition is_preparation (e : Event) : bool :=
  match e with
  | CheckEnvironment _ | CopyTree _ _ | ShutilCopy _ _ => true
  | Tf (Destroy _ _) => false
  | Tf _ => true
  | _ => false
  end.

(** The calls of [_remove_build_files]. *)
Definition is_teardown (e : Event) : bool :=
  match e with
  | State Delete | Rmtree _ | OsRemove _ => true
  | _ => false
  end.

(** [w'] is [w] after the calls [evs]. *)
Definition extends (w w' : World) (evs : list Event) : Prop :=
  calls w' = calls w ++ evs.

(** Of the persisted state and of the generated artifacts that [before]
    held, [after] holds no more than what could not be removed: the state
    is deleted, the state file, the JSON config and the state backup are
    gone, and of a tree at [TF_DIR] only undeletable paths are left. *)
Definition artifacts_removed (K : Constants) (X : Externals)
    (before after : World) : Prop :=
  StateService.is_created (state_service after) = false /\
  (forall p, isdir (TF_DIR K) (fs before) = true ->
             is_under (TF_DIR K) p = true ->
             fs after !! p = None \/ undeletable X p = true) /\
  fs after !! TF_STATE K = None /\
  fs after !! TF_CONFIG_JSON K = None /\
  fs after !! TF_STATE_BACKUP K = None.

(** The URL of the cleanup request, line 96. *)
Definition cleanup_url (K : Constants) (X : Externals) (s : StateService) : string :=
  py_str (repr X) (StateService.get (BACKEND K) "url" s) +:+ "/internal/resources".

(** The text [_get_vars] begins with, line 142. *)
Definition config_dir_var (X : Externals) : string :=
  "--var config_dir=" +:+ cwd X +:+ " ".

(** Whatever [m] does, its calls all satisfy [P]. *)
Definition emits {A : Type} (P : Event -> bool) (m : M A) : Prop :=
  forall w, exists evs, extends w (m w).2 evs /\ forallb P evs = true.

(** Whatever [m] does, it leaves the state service as it was. *)
Definition keeps_state {A : Type} (m : M A) : Prop :=
  forall w, state_service (m w).2 = state_service w.


(** The part of [build] after endpoint resolution, lines 63-66. *)
Definition persist (K : Constants) (X : Externals) (url : string) (kubeconfig : json)
  : M unit :=
  state_call Create StateService.create;;
  state_call (SetSection (BACKEND K) [("url", JStr url); ("token", JStr (uuid4 X))])
    (StateService.set (BACKEND K) [("url", JStr url); ("token", JStr (uuid4 X))]);;
  state_call (SetSection (INFRASTRUCTURE K) [("kubeconfig", kubeconfig)])
    (StateService.set (INFRASTRUCTURE K) [("kubeconfig", kubeconfig)]);;
  state_call Write StateService.write.

(** The calls of [persist], in order. *)
Definition persist_calls (K : Constants) (X : Externals) (url : string)
    (kubeconfig : json) : list Event :=
  [State Create;
   State (SetSection (BACKEND K) [("url", JStr url); ("token", JStr (uuid4 X))]);
   State (SetSection (INFRASTRUCTURE K) [("kubeconfig", kubeconfig)]);
   State Write].

Definition not_state_call (e : Event) : bool := negb (is_state_call e).

Definition not_copy_tree (e : Event) : bool := negb (is_copy_tree e).

(** The template and the working directory of a cloud provider, lines
    102-103. *)
Definition template_of (K : Constants) (provider env : string) : string :=
  str_of_opt (PROVIDER_DICT K !! provider) +:+ "/" +:+ env.

Definition working_directory (K : Constants) (provider env : string) : string :=
  str_of_opt (PROVIDER_DICT K !! provider) +:+ "/__working_" +:+ env.


(** ** The rest of the facade *)

(** The [user] property, lines 34-36. *)
Definition user (K : Constants) : M json :=
  read_state (StateService.get (BACKEND K) "user").

(** The [token] property, lines 38-40. *)
Definition token (K : Constants) : M json :=
  read_state (StateService.get (BACKEND K) "token").

(** The [kubeconfig] property, lines 42-44. *)
Definition kubeconfig (K : Constants) : M json :=
  read_state (StateService.get (INFRASTRUCTURE K) "kubeconfig").

(** [BackendFacade.is_created], lines 77-78. *)
Definition is_created : M bool := read_state StateService.is_created.


(** What [build] may call: anything but the engine's destroy, the cleanup
    request, the removal of files and the deletion of the state. *)
Definition build_may_call (e : Event) : bool :=
  match e with
  | Tf (Destroy _ _) | State Delete => false
  | RequestsDelete _ | Rmtree _ | OsRemove _ => false
  | _ => true
  end.

(** What [destroy] may call: anything but plan and apply, the copy of a
    local backend config, and the creation and writing of state. *)
Definition destroy_may_call (e : Event) : bool :=
  match e with
  | Tf (Plan _ _) | Tf (Apply _ _) | ShutilCopy _ _ => false
  | State Delete => true
  | State _ => false
  | _ => true
  end.

(** * Properties *)

(** ** Strings *)

Lemma append_assoc (a b c : string) : (a +:+ b) +:+ c = a +:+ b +:+ c.
Proof.
  induction a as [|ch a IH]; [reflexivity |].
  change (String ch ((a +:+ b) +:+ c) = String ch (a +:+ b +:+ c)).
  now rewrite IH.
Qed.

Lemma append_nil_r (a : string) : a +:+ "" = a.
Proof.
  induction a as [|ch a IH]; [reflexivity |].
  change (String ch (a +:+ "") = String ch a).
  now rewrite IH.
Qed.

(** ** Variable derivation *)

Section GetVars.

Context (K : Constants) (X : Externals).

Lemma get_vars_unfold (provider : string) :
  _get_vars K X provider =
  config_dir_var X
  +:+ (if String.eqb provider (AWS K) then
         "--var aws_access_key_id=" +:+ str_of_opt (environ X !! "AWS_ACCESS_KEY_ID")
         +:+ " --var aws_secret_access_key="
         +:+ str_of_opt (environ X !! "AWS_SECRET_ACCESS_KEY")
         +:+ " --var region=" +:+ str_of_opt (environ X !! "AWS_DEFAULT_REGION")
       else "")
  +:+ (if String.eqb provider (GCP K) then
         "--var credentials_path="
         +:+ str_of_opt (environ X !! "GOOGLE_APPLICATION_CREDENTIALS")
       else "").
Proof.
  unfold _get_vars, config_dir_var.
  destruct (String.eqb provider (AWS K)), (String.eqb provider (GCP K));
    cbn [String.concat map];
    repeat (rewrite ?append_assoc, ?append_nil_r; cbn [String.append]);
    reflexivity.
Qed.

(** C7: for every provider, in every environment, [_get_vars] yields a
    string that begins with the [config_dir] variable set to the absolute
    path of the working directory; for the provider [AWS], with the three
    credential variables set, the string goes on with the three values as
    [--var key=value] tokens; for a provider that is neither [AWS] nor
    [GCP] the [config_dir] variable is all there is, whatever the
    environment holds. *)
Theorem get_vars_config_dir_and_credentials :
  (forall provider,
      exists rest, _get_vars K X provider = config_dir_var X +:+ rest) /\
  (forall key secret region,
      environ X !! "AWS_ACCESS_KEY_ID" = Some key ->
      environ X !! "AWS_SECRET_ACCESS_KEY" = Some secret ->
      environ X !! "AWS_DEFAULT_REGION" = Some region ->
      exists rest,
        _get_vars K X (AWS K) =
          config_dir_var X +:+ "--var aws_access_key_id=" +:+ key
          +:+ " --var aws_secret_access_key=" +:+ secret
          +:+ " --var region=" +:+ region +:+ rest
        /\ (AWS K <> GCP K -> rest = "")) /\
  (forall provider,
      provider <> AWS K -> provider <> GCP K ->
      _get_vars K X provider = config_dir_var X).
Proof.
  split; [| split].
  - intros provider. rewrite get_vars_unfold. eexists.
    rewrite <- append_assoc at 1. rewrite append_assoc. reflexivity.
  - intros key secret region Hkey Hsecret Hregion.
    rewrite get_vars_unfold, String.eqb_refl, Hkey, Hsecret, Hregion.
    cbn [str_of_opt default].
    exists (if String.eqb (AWS K) (GCP K)
            then "--var credentials_path="
                 +:+ str_of_opt (environ X !! "GOOGLE_APPLICATION_CREDENTIALS")
            else "").
    split.
    + repeat rewrite append_assoc. reflexivity.
    + intros Hne. apply String.eqb_neq in Hne. now rewrite Hne.
  - intros provider Haws Hgcp. rewrite get_vars_unfold.
    apply String.eqb_neq in Haws, Hgcp. rewrite Haws, Hgcp.
    now rewrite !append_nil_r.
Qed.


End GetVars.

(** ** Numerals *)

Lemma digit_of_pretty_N_char (x : N) :
  (x < 10)%N -> digit_of (pretty_N_char x) = Some (Z.of_N x).
Proof.
  intros Hx.
  assert (x = 0 \/ x = 1 \/ x = 2 \/ x = 3 \/ x = 4 \/ x = 5 \/ x = 6
          \/ x = 7 \/ x = 8 \/ x = 9)%N as Hcases by lia.
  repeat (destruct Hcases as [-> | Hcases]; [reflexivity |]).
  now subst.
Qed.

(** The digits [pretty] puts in front of [s] read back as the number. *)
Lemma digits_from_pretty_N_go (x : N) :
  (0 < x)%N ->
  exists k, 0 <= k /\
    forall (after_digit : bool) (acc : Z) (s : string),
      digits_from after_digit acc (pretty_N_go x s)
      = digits_from true (acc * 10 ^ k + Z.of_N x) s.
Proof.
  induction (N.lt_wf_0 x) as [x _ IH]. intros Hpos.
  assert (Hdigit : digit_of (pretty_N_char (x `mod` 10)) = Some (Z.of_N (x `mod` 10)))
    by (apply digit_of_pretty_N_char, N.mod_lt; lia).
  assert (Hsplit : Z.of_N x = 10 * Z.of_N (x `div` 10) + Z.of_N (x `mod` 10))
    by (rewrite (N.div_mod x 10) at 1 by lia; lia).
  destruct (N.eq_dec (x `div` 10)%N 0%N) as [Hzero | Hmore].
  - exists 1. split; [lia |]. intros after_digit acc s.
    rewrite pretty_N_go_step by exact Hpos. rewrite Hzero, pretty_N_go_0.
    cbn [digits_from]. rewrite Hdigit. f_equal. rewrite Hzero in Hsplit. lia.
  - destruct (IH (x `div` 10)%N) as (k & Hk & Hread).
    + apply N.div_lt; lia.
    + now apply N.neq_0_lt_0.
    + exists (k + 1). split; [lia |]. intros after_digit acc s.
      rewrite pretty_N_go_step by exact Hpos. rewrite Hread.
      cbn [digits_from]. rewrite Hdigit. f_equal.
      rewrite Z.pow_add_r by lia. lia.
Qed.

Lemma pretty_N_go_head (x : N) (s : string) :
  (0 < x)%N -> exists y rest, pretty_N_go x s = String (pretty_N_char y) rest.
Proof.
  revert s. induction (N.lt_wf_0 x) as [x _ IH]. intros s Hpos.
  rewrite pretty_N_go_step by exact Hpos.
  destruct (N.eq_dec (x `div` 10)%N 0%N) as [Hzero | Hmore].
  - rewrite Hzero, pretty_N_go_0. eauto.
  - apply IH; [apply N.div_lt; lia | now apply N.neq_0_lt_0].
Qed.

Lemma is_ascii_pretty_N_go (x : N) (s : string) :
  is_ascii (pretty_N_go x s) = is_ascii s.
Proof.
  revert s. induction (N.lt_wf_0 x) as [x _ IH]. intros s.
  destruct (N.eq_dec x 0%N) as [-> | Hpos]; [now rewrite pretty_N_go_0 |].
  rewrite pretty_N_go_step by lia. rewrite IH by (apply N.div_lt; lia).
  cbn [is_ascii]. unfold pretty_N_char. now repeat case_match.
Qed.

Lemma int_of_str_pretty_pos (p : positive) :
  int_of_str (pretty_N_go (N.pos p) "") = Some (Z.pos p).
Proof.
  destruct (digits_from_pretty_N_go (N.pos p)) as (k & _ & Hread); [lia |].
  destruct (pretty_N_go_head (N.pos p) "") as (y & rest & Hhead); [lia |].
  unfold int_of_str.
  assert (Hstrip : lstrip (pretty_N_go (N.pos p) "") = pretty_N_go (N.pos p) "").
  { rewrite Hhead. unfold pretty_N_char. now repeat case_match. }
  rewrite Hstrip.
  transitivity (digits_from false 0 (pretty_N_go (N.pos p) "")).
  - rewrite Hhead. unfold pretty_N_char. now repeat case_match.
  - rewrite Hread. cbn. reflexivity.
Qed.

(** [int(str(z))] is [z]: the decimal text of an integer is read back as
    the integer. *)
Lemma int_of_str_of_int (z : Z) : int_of_str (str_of_int z) = Some z.
Proof.
  unfold str_of_int, pretty, pretty_Z. destruct z as [|p|p].
  - reflexivity.
  - unfold pretty, pretty_positive, pretty, pretty_N. cbn [decide]. 
    rewrite decide_False by discriminate. apply int_of_str_pretty_pos.
  - unfold pretty, pretty_positive, pretty, pretty_N.
    rewrite decide_False by discriminate.
    destruct (digits_from_pretty_N_go (N.pos p)) as (k & _ & Hread); [lia |].
    change (int_of_str ("-" +:+ pretty_N_go (N.pos p) ""))
      with (Z.opp <$> digits_from false 0 (pretty_N_go (N.pos p) "")).
    rewrite Hread. reflexivity.
Qed.

Lemma is_ascii_str_of_int (z : Z) : is_ascii (str_of_int z) = true.
Proof.
  unfold str_of_int, pretty, pretty_Z. destruct z as [|p|p]; [reflexivity | |];
    unfold pretty, pretty_positive, pretty, pretty_N;
    rewrite decide_False by discriminate.
  - now rewrite is_ascii_pretty_N_go.
  - change (is_ascii ("-" +:+ pretty_N_go (N.pos p) ""))
      with (is_ascii (pretty_N_go (N.pos p) "")).
    now rewrite is_ascii_pretty_N_go.
Qed.

(** The three ways an output artifact gives the port [z]: the integer,
    its decimal text, and a float, whose fraction is cut off. *)
Lemma py_int_reads_port (int_unicode : string -> option Z) (v : json) (z : Z) :
  v = JInt z \/ v = JStr (str_of_int z) \/
  (exists m e, v = JFloat (Finite m e) /\
               (0 <= e /\ z = m * 2 ^ e \/ e < 0 /\ z = Z.quot m (2 ^ (- e)))) ->
  py_int int_unicode v = Ret z.
Proof.
  intros [-> | [-> | (m & e & -> & Hvalue)]].
  - reflexivity.
  - cbn. now rewrite is_ascii_str_of_int, int_of_str_of_int.
  - cbn. destruct Hvalue as [[He ->] | [He ->]].
    + now rewrite (proj2 (Z.leb_le 0 e) He).
    + now rewrite (proj2 (Z.leb_gt 0 e) He).
Qed.

(** ** Endpoint resolution *)

Section ParseConfig.

Context (K : Constants) (X : Externals).

(** Lines 121-122: the artifact is read and the world stays as it is. *)
Lemma parse_config_reads (w : World) (raw : json) :
  fs w !! TF_CONFIG_JSON K = Some (File (Some raw)) ->
  _parse_config K X w = (parse_raw_config X raw, w).
Proof.
  intros Hfile. unfold _parse_config, mbind, M_bind, read_fs, json_load, lift.
  now rewrite Hfile.
Qed.

(** What [_parse_config] does once the first domain entry is known to be
    a dict: lines 125-137. *)
Lemma parse_raw_config_first (raw : json) (fields : list (string * json))
    (rest : list json) :
  py_item raw "backend_domain" = Ret (JArr (JObj fields :: rest)) ->
  parse_raw_config X raw =
    let domain := py_or (default JNull (dict_get "hostname" fields))
                        (default JNull (dict_get "ip" fields)) in
    if truthy domain then
      port ← py_item raw "backend_port" ≫= py_int (int_unicode X);
      path ← py_item raw "backend_path";
      kubeconfig ← py_item raw "kubeconfig";
      mret ("http://" +:+ py_str (repr X) domain +:+ ":" +:+ str_of_int port
            +:+ py_str (repr X) path, kubeconfig)
    else Raise (HostnameError "Hostname not present").
Proof.
  intros Hdomain. unfold parse_raw_config. rewrite Hdomain. cbn.
  destruct (truthy (py_or _ _)); reflexivity.
Qed.

Lemma parse_raw_config_url (raw : json) (fields : list (string * json))
    (rest : list json) (domain : json) (port : Z) (path kubeconfig : json) :
  py_item raw "backend_domain" = Ret (JArr (JObj fields :: rest)) ->
  py_or (default JNull (dict_get "hostname" fields))
        (default JNull (dict_get "ip" fields)) = domain ->
  truthy domain = true ->
  py_item raw "backend_port" ≫= py_int (int_unicode X) = Ret port ->
  py_item raw "backend_path" = Ret path ->
  py_item raw "kubeconfig" = Ret kubeconfig ->
  parse_raw_config X raw =
    Ret ("http://" +:+ py_str (repr X) domain +:+ ":" +:+ str_of_int port
         +:+ py_str (repr X) path, kubeconfig).
Proof.
  intros Hfirst Hdomain Htruthy Hport Hpath Hkube.
  rewrite (parse_raw_config_first _ _ _ Hfirst). cbv zeta.
  rewrite Hdomain, Htruthy, Hport. cbn. rewrite Hpath. cbn.
  rewrite Hkube. reflexivity.
Qed.

Lemma parse_raw_config_no_domain (raw : json) (fields : list (string * json))
    (rest : list json) :
  py_item raw "backend_domain" = Ret (JArr (JObj fields :: rest)) ->
  truthy (default JNull (dict_get "hostname" fields)) = false ->
  truthy (default JNull (dict_get "ip" fields)) = false ->
  parse_raw_config X raw = Raise (HostnameError "Hostname not present").
Proof.
  intros Hfirst Hhost Hip.
  rewrite (parse_raw_config_first _ _ _ Hfirst). cbv zeta.
  unfold py_or. now rewrite Hhost, Hip.
Qed.

(** C4: of a non-empty [backend_domain] only the first entry counts; when
    it carries a hostname (a value that is not empty), the hostname is the
    domain whatever its [ip]; the URL is [http://{domain}:{port}{path}]
    with the port coerced to an integer, be it given as an integer, as its
    decimal text or as a float; and the kubeconfig comes back as it
    stands. *)
Theorem parse_config_prefers_hostname (w : World) (raw : json)
    (fields : list (string * json)) (rest : list json)
    (hostname port_field : json) (port : Z) (path kubeconfig : json) :
  fs w !! TF_CONFIG_JSON K = Some (File (Some raw)) ->
  py_item raw "backend_domain" = Ret (JArr (JObj fields :: rest)) ->
  dict_get "hostname" fields = Some hostname ->
  truthy hostname = true ->
  py_item raw "backend_port" = Ret port_field ->
  port_field = JInt port \/ port_field = JStr (str_of_int port) \/
  (exists m e, port_field = JFloat (Finite m e) /\
               (0 <= e /\ port = m * 2 ^ e
                \/ e < 0 /\ port = Z.quot m (2 ^ (- e)))) ->
  py_item raw "backend_path" = Ret path ->
  py_item raw "kubeconfig" = Ret kubeconfig ->
  _parse_config K X w =
    (Ret ("http://" +:+ py_str (repr X) hostname +:+ ":" +:+ str_of_int port
          +:+ py_str (repr X) path, kubeconfig), w).
Proof.
  intros Hfile Hfirst Hhost Htruthy Hport Hform Hpath Hkube.
  rewrite (parse_config_reads _ _ Hfile). f_equal.
  apply (parse_raw_config_url raw fields rest hostname); try assumption.
  - rewrite Hhost. simpl. unfold py_or. now rewrite Htruthy.
  - rewrite Hport. cbn. now apply py_int_reads_port.
Qed.

(** C10: presence of a domain value is its truth value, not the presence
    of its key.  With [hostname] the empty string, a non-empty [ip] is the
    domain; with both the empty string, [HostnameError] is raised although
    both keys are there. *)
Theorem parse_config_presence_is_truthiness (w : World) (raw : json)
    (fields : list (string * json)) (rest : list json) :
  fs w !! TF_CONFIG_JSON K = Some (File (Some raw)) ->
  py_item raw "backend_domain" = Ret (JArr (JObj fields :: rest)) ->
  dict_get "hostname" fields = Some (JStr "") ->
  (forall (ip : string) (port : Z) (path kubeconfig : json),
      dict_get "ip" fields = Some (JStr ip) ->
      ip <> "" ->
      py_item raw "backend_port" ≫= py_int (int_unicode X) = Ret port ->
      py_item raw "backend_path" = Ret path ->
      py_item raw "kubeconfig" = Ret kubeconfig ->
      _parse_config K X w =
        (Ret ("http://" +:+ ip +:+ ":" +:+ str_of_int port
              +:+ py_str (repr X) path, kubeconfig), w)) /\
  (dict_get "ip" fields = Some (JStr "") ->
   _parse_config K X w = (Raise (HostnameError "Hostname not present"), w)).
Proof.
  intros Hfile Hfirst Hhost. rewrite (parse_config_reads _ _ Hfile). split.
  - intros ip port path kubeconfig Hip Hne Hport Hpath Hkube. f_equal.
    apply (parse_raw_config_url raw fields rest (JStr ip)); try assumption.
    + now rewrite Hhost, Hip.
    + cbn. apply String.eqb_neq in Hne. now rewrite Hne.
  - intros Hip. f_equal.
    apply (parse_raw_config_no_domain raw fields rest Hfirst).
    + now rewrite Hhost.
    + now rewrite Hip.
Qed.

End ParseConfig.

(** ** Running statements *)

Lemma run_bind {A B : Type} (m : M A) (k : A -> M B) (w : World) :
  (m ≫= k) w =
  match m w with
  | (Ret a, w1) => k a w1
  | (Raise e, w1) => (Raise e, w1)
  end.
Proof. reflexivity. Qed.

Lemma bind_returns {A B : Type} (m : M A) (k : A -> M B) (w w' : World) (b : B) :
  (m ≫= k) w = (Ret b, w') ->
  exists a w1, m w = (Ret a, w1) /\ k a w1 = (Ret b, w').
Proof.
  rewrite run_bind. destruct (m w) as [[a|e] w1]; intros H.
  - now exists a, w1.
  - discriminate.
Qed.

Lemma state_call_run (c : StateCall) (f : StateService -> StateService) (w : World) :
  state_call c f w =
  (Ret tt, {| fs := fs w; state_service := f (state_service w);
              calls := calls w ++ [State c] |}).
Proof. reflexivity. Qed.

(** *** What a statement calls *)

Lemma extends_trans (w w1 w2 : World) (evs1 evs2 : list Event) :
  extends w w1 evs1 -> extends w1 w2 evs2 -> extends w w2 (evs1 ++ evs2).
Proof. unfold extends. intros H1 H2. now rewrite H2, H1, app_assoc. Qed.

Lemma emits_here {A : Type} (P : Event -> bool) (m : M A) :
  (forall w, calls (m w).2 = calls w) -> emits P m.
Proof.
  intros H w. exists []. split; [| reflexivity].
  unfold extends. now rewrite H, app_nil_r.
Qed.

Lemma emits_mret {A : Type} (P : Event -> bool) (a : A) : emits P (mret a).
Proof. now apply emits_here. Qed.

Lemma emits_log (P : Event -> bool) (e : Event) : P e = true -> emits P (log e).
Proof.
  intros HP w. exists [e]. split; [reflexivity |]. cbn. now rewrite HP.
Qed.

Lemma emits_bind {A B : Type} (P : Event -> bool) (m : M A) (k : A -> M B) :
  emits P m -> (forall a, emits P (k a)) -> emits P (m ≫= k).
Proof.
  intros Hm Hk w. rewrite run_bind.
  destruct (Hm w) as (evs1 & Hext1 & HP1).
  destruct (m w) as [[a|e] w1]; cbn in *.
  - destruct (Hk a w1) as (evs2 & Hext2 & HP2).
    exists (evs1 ++ evs2). split.
    + eapply extends_trans; eassumption.
    + rewrite forallb_app, HP1, HP2. reflexivity.
  - now exists evs1.
Qed.

Lemma emits_run {A : Type} (P : Event -> bool) (m : M A) (w w' : World)
    (o : outcome A) :
  emits P m -> m w = (o, w') ->
  exists evs, extends w w' evs /\ forallb P evs = true.
Proof. intros Hm Hrun. specialize (Hm w). now rewrite Hrun in Hm. Qed.

Lemma keeps_state_run {A : Type} (m : M A) (w w' : World) (o : outcome A) :
  keeps_state m -> m w = (o, w') -> state_service w' = state_service w.
Proof. intros Hm Hrun. specialize (Hm w). now rewrite Hrun in Hm. Qed.

Lemma emits_when (P : Event -> bool) (b : bool) (m : M unit) :
  emits P m -> emits P (when b m).
Proof. destruct b; [trivial | intros _; apply emits_mret]. Qed.


(** *** What a statement leaves alone *)

Lemma keeps_state_bind {A B : Type} (m : M A) (k : A -> M B) :
  keeps_state m -> (forall a, keeps_state (k a)) -> keeps_state (m ≫= k).
Proof.
  intros Hm Hk w. rewrite run_bind. specialize (Hm w).
  destruct (m w) as [[a|e] w1]; cbn in *.
  - now rewrite Hk.
  - exact Hm.
Qed.

Lemma keeps_state_when (b : bool) (m : M unit) :
  keeps_state m -> keeps_state (when b m).
Proof. destruct b; [trivial | now intros _ w]. Qed.

(** Splits a statement into the calls it is made of. *)
Ltac frame :=
  repeat first
    [ apply emits_bind; [| intros ?]
    | apply emits_when
    | apply emits_log; reflexivity
    | apply emits_here; reflexivity
    | apply keeps_state_bind; [| intros ?]
    | apply keeps_state_when
    | match goal with
      | |- emits _ (match ?x with _ => _ end) => destruct x
      | |- keeps_state (match ?x with _ => _ end) => destruct x
      | |- keeps_state _ => intros ?; reflexivity
      end ].

(** ** The calls of the facade's operations *)

Section Frames.

Context (K : Constants) (X : Externals).

Lemma tf_calls (c : TfCall) (w w' : World) (o : outcome unit) :
  tf X c w = (o, w') -> calls w' = calls w ++ [Tf c].
Proof.
  unfold tf, fs_call. rewrite !run_bind. cbn. rewrite run_bind. cbn.
  destruct (terraform X c (fs w)); cbn; intros H; inversion H; reflexivity.
Qed.

Lemma tf_init_emits (provider env : string) (local_backend destroying : bool) :
  emits is_preparation (_tf_init K X provider env local_backend destroying).
Proof.
  unfold _tf_init, do_check_environment, do_copy_tree, do_shutil_copy,
    tf_exists_workspace, tf, fs_call.
  frame.
Qed.

Lemma tf_init_keeps_state (provider env : string) (local_backend destroying : bool) :
  keeps_state (_tf_init K X provider env local_backend destroying).
Proof.
  unfold _tf_init, do_check_environment, do_copy_tree, do_shutil_copy,
    tf_exists_workspace, tf, fs_call.
  frame.
Qed.

Lemma provision_emits (provider env : string) (local_backend verbose : bool) :
  emits is_preparation (provision K X provider env local_backend verbose).
Proof.
  unfold provision. apply emits_bind; [| intros _; apply emits_bind].
  - unfold tf, fs_call. frame.
  - apply tf_init_emits.
  - intros directory. unfold tf, fs_call. frame.
Qed.

Lemma provision_keeps_state (provider env : string) (local_backend verbose : bool) :
  keeps_state (provision K X provider env local_backend verbose).
Proof.
  unfold provision. apply keeps_state_bind; [| intros _; apply keeps_state_bind].
  - unfold tf, fs_call. frame.
  - apply tf_init_keeps_state.
  - intros directory. unfold tf, fs_call. frame.
Qed.

Lemma prepare_destroy_emits (provider env : string) (verbose : bool) :
  emits is_preparation (prepare_destroy K X provider env verbose).
Proof.
  unfold prepare_destroy. apply emits_bind.
  - unfold tf, fs_call. frame.
  - intros _. apply tf_init_emits.
Qed.

Lemma prepare_destroy_keeps_state (provider env : string) (verbose : bool) :
  keeps_state (prepare_destroy K X provider env verbose).
Proof.
  unfold prepare_destroy. apply keeps_state_bind.
  - unfold tf, fs_call. frame.
  - intros _. apply tf_init_keeps_state.
Qed.

Lemma parse_config_same_world (w : World) : (_parse_config K X w).2 = w.
Proof.
  unfold _parse_config. rewrite run_bind. cbn.
  destruct (json_load _ _); reflexivity.
Qed.

Lemma remove_build_files_emits : emits is_teardown (_remove_build_files K X).
Proof.
  unfold _remove_build_files, state_call, do_rmtree, remove_if_exists, do_os_remove.
  frame.
Qed.

End Frames.

(** ** [build] *)

Section Build.

Context (K : Constants) (X : Externals).

Lemma build_run (provider env : string) (local_backend verbose : bool) (w : World) :
  build K X provider env local_backend verbose w =
  match provision K X provider env local_backend verbose w with
  | (Raise e, w1) => (Raise e, w1)
  | (Ret _, w1) =>
      match _parse_config K X w1 with
      | (Raise e, w2) => (Raise e, w2)
      | (Ret (url, kubeconfig), w2) => persist K X url kubeconfig w2
      end
  end.
Proof.
  unfold build, provision. rewrite !run_bind.
  destruct (tf X (SetVerbose verbose) w) as [[[]|e] w0]; [| reflexivity].
  rewrite !run_bind.
  destruct (_tf_init K X provider env local_backend false w0) as [[d|e] w1];
    [| reflexivity].
  rewrite !run_bind.
  destruct (tf X (Plan d _) w1) as [[[]|e] w2]; [| reflexivity].
  rewrite !run_bind.
  destruct (tf X (Apply d _) w2) as [[[]|e] w3]; [| reflexivity].
  rewrite run_bind.
  destruct (_parse_config K X w3) as [[[url kubeconfig]|e] w4]; reflexivity.
Qed.

Lemma persist_run (url : string) (kubeconfig : json) (w : World) :
  persist K X url kubeconfig w =
  (Ret tt,
   {| fs := fs w;
      state_service :=
        StateService.write
          (StateService.set (INFRASTRUCTURE K) [("kubeconfig", kubeconfig)]
             (StateService.set (BACKEND K)
                [("url", JStr url); ("token", JStr (uuid4 X))]
                (StateService.create (state_service w))));
      calls := calls w ++ persist_calls K X url kubeconfig |}).
Proof.
  unfold persist, persist_calls.
  repeat (rewrite run_bind, state_call_run; cbn).
  rewrite state_call_run. cbn. now rewrite <- !app_assoc.
Qed.

Lemma provision_applies (provider env : string) (local_backend verbose : bool)
    (w w1 : World) :
  provision K X provider env local_backend verbose w = (Ret tt, w1) ->
  exists directory before,
    calls w1 = calls w ++ before ++ [Tf (Apply directory (_get_vars K X provider))]
    /\ forallb not_state_call before = true.
Proof.
  unfold provision. intros H.
  apply bind_returns in H as ([] & w0 & H0 & H).
  apply bind_returns in H as (d & w2 & H2 & H).
  apply bind_returns in H as ([] & w3 & H3 & H).
  apply tf_calls in H0, H3, H.
  destruct (emits_run _ _ _ _ _ (tf_init_emits K X _ _ _ _) H2) as (evs & Hevs & HP).
  exists d, ([Tf (SetVerbose verbose)] ++ evs
             ++ [Tf (Plan d (_get_vars K X provider))]).
  split.
  - rewrite H, H3, Hevs, H0. now rewrite <- !app_assoc.
  - rewrite !forallb_app. cbn. rewrite andb_true_r.
    rewrite forallb_forall in *. intros e He. specialize (HP e He).
    now destruct e.
Qed.

Lemma get_set (section section' key : string) (kv : list (string * json))
    (s : StateService) :
  StateService.get section key (StateService.set section' kv s) =
  if decide (section = section') then
    default (StateService.get section key s)
            ((list_to_map kv : gmap string json) !! key)
  else StateService.get section key s.
Proof.
  unfold StateService.get, StateService.set. cbn.
  destruct (decide (section = section')) as [<-|Hne].
  - rewrite lookup_insert_eq. cbn. rewrite lookup_union.
    destruct (list_to_map kv !! key) as [v|]; destruct (config s !! section) as [sec|];
      cbn; try reflexivity.
    + now destruct (sec !! key).
    + now destruct (sec !! key).
  - rewrite lookup_insert_ne; [reflexivity | congruence].
Qed.

Lemma get_write (section key : string) (s : StateService) :
  StateService.get section key (StateService.write s) = StateService.get section key s.
Proof. reflexivity. Qed.

(** What [persist] leaves in the state service. *)
Lemma persist_state (url : string) (kubeconfig : json) (w : World) :
  let s := state_service (persist K X url kubeconfig w).2 in
  StateService.get (BACKEND K) "url" s = JStr url /\
  StateService.get (BACKEND K) "token" s = JStr (uuid4 X) /\
  StateService.get (INFRASTRUCTURE K) "kubeconfig" s = kubeconfig /\
  stored s = Some (config s).
Proof.
  rewrite persist_run. cbn [snd state_service].
  rewrite !get_write, !get_set.
  repeat split.
  - destruct (decide (BACKEND K = INFRASTRUCTURE K)); [cbn |];
      rewrite decide_True by reflexivity; reflexivity.
  - destruct (decide (BACKEND K = INFRASTRUCTURE K)); [cbn |];
      rewrite decide_True by reflexivity; reflexivity.
  - rewrite decide_True by reflexivity. reflexivity.
Qed.

(** C2: [build] touches the state service only after variable derivation,
    workspace preparation, plan, apply and endpoint resolution have all
    succeeded.  When [build] raises, the state service is as it was and no
    call to it was made; when [build] returns, the provisioning steps and
    endpoint resolution returned, the four state calls come last, after
    the engine's apply, and they set BACKEND url and token and
    INFRASTRUCTURE kubeconfig together and write them. *)
Theorem build_persists_only_after_success (provider env : string)
    (local_backend verbose : bool) (w w' : World) (o : outcome unit) :
  build K X provider env local_backend verbose w = (o, w') ->
  match o with
  | Raise _ =>
      state_service w' = state_service w /\
      exists evs, extends w w' evs /\ forallb not_state_call evs = true
  | Ret _ =>
      exists w1 url kubeconfig directory before,
        provision K X provider env local_backend verbose w = (Ret tt, w1) /\
        _parse_config K X w1 = (Ret (url, kubeconfig), w1) /\
        state_service w1 = state_service w /\
        forallb not_state_call before = true /\
        calls w' = calls w
                   ++ (before ++ [Tf (Apply directory (_get_vars K X provider))])
                   ++ persist_calls K X url kubeconfig /\
        StateService.get (BACKEND K) "url" (state_service w') = JStr url /\
        StateService.get (BACKEND K) "token" (state_service w') = JStr (uuid4 X) /\
        StateService.get (INFRASTRUCTURE K) "kubeconfig" (state_service w')
          = kubeconfig /\
        stored (state_service w') = Some (config (state_service w'))
  end.
Proof.
  rewrite build_run.
  destruct (provision K X provider env local_backend verbose w) as [[[]|e] w1] eqn:Hprov.
  - pose proof (parse_config_same_world K X w1) as Hsame.
    destruct (_parse_config K X w1) as [[[url kubeconfig]|e] w2] eqn:Hparse;
      cbn in Hsame; subst w2.
    + intros Hrun.
      pose proof (persist_state url kubeconfig w1) as Hstate.
      pose proof (persist_run url kubeconfig w1) as Hcalls.
      rewrite Hrun in Hstate, Hcalls. cbn in Hstate.
      injection Hcalls as -> ->.
      destruct (provision_applies _ _ _ _ _ _ Hprov) as (d & before & Hlog & Hquiet).
      exists w1, url, kubeconfig, d, before.
      repeat split; try apply Hstate; try assumption.
      * exact (keeps_state_run _ _ _ _ (provision_keeps_state K X _ _ _ _) Hprov).
      * cbn. rewrite Hlog. now rewrite <- !app_assoc.
    + intros Hrun. injection Hrun as <- <-. split.
      * exact (keeps_state_run _ _ _ _ (provision_keeps_state K X _ _ _ _) Hprov).
      * destruct (emits_run _ _ _ _ _ (provision_emits K X _ _ _ _) Hprov)
          as (evs & Hext & HP).
        exists evs. split; [assumption |].
        rewrite forallb_forall in *. intros ev Hev. specialize (HP ev Hev).
        now destruct ev.
  - intros Hrun. injection Hrun as <- <-. split.
    + exact (keeps_state_run _ _ _ _ (provision_keeps_state K X _ _ _ _) Hprov).
    + destruct (emits_run _ _ _ _ _ (provision_emits K X _ _ _ _) Hprov)
        as (evs & Hext & HP).
      exists evs. split; [assumption |].
      rewrite forallb_forall in *. intros ev Hev. specialize (HP ev Hev).
      now destruct ev.
Qed.

(** C5: when the first [backend_domain] entry carries neither a hostname
    nor an ip, [_parse_config] raises [HostnameError]; in [build] this
    happens right after provisioning, with the state service as it was at
    the start and no call made to it. *)
Theorem hostname_error_precedes_persistence (w1 : World) (raw : json)
    (fields : list (string * json)) (rest : list json) :
  fs w1 !! TF_CONFIG_JSON K = Some (File (Some raw)) ->
  py_item raw "backend_domain" = Ret (JArr (JObj fields :: rest)) ->
  dict_get "hostname" fields = None ->
  dict_get "ip" fields = None ->
  _parse_config K X w1 = (Raise (HostnameError "Hostname not present"), w1) /\
  forall (provider env : string) (local_backend verbose : bool) (w : World),
    provision K X provider env local_backend verbose w = (Ret tt, w1) ->
    build K X provider env local_backend verbose w
      = (Raise (HostnameError "Hostname not present"), w1) /\
    state_service w1 = state_service w /\
    exists evs, extends w w1 evs /\ forallb not_state_call evs = true.
Proof.
  intros Hfile Hfirst Hhost Hip.
  assert (Hparse : _parse_config K X w1
                   = (Raise (HostnameError "Hostname not present"), w1)).
  { rewrite (parse_config_reads K X _ _ Hfile). f_equal.
    apply (parse_raw_config_no_domain X raw fields rest Hfirst).
    - now rewrite Hhost.
    - now rewrite Hip. }
  split; [exact Hparse |].
  intros provider env local_backend verbose w Hprov. repeat split.
  - now rewrite build_run, Hprov, Hparse.
  - exact (keeps_state_run _ _ _ _ (provision_keeps_state K X _ _ _ _) Hprov).
  - destruct (emits_run _ _ _ _ _ (provision_emits K X _ _ _ _) Hprov)
      as (evs & Hext & HP).
    exists evs. split; [assumption |].
    rewrite forallb_forall in *. intros ev Hev. specialize (HP ev Hev).
    now destruct ev.
Qed.

(** [build] calls [create] whenever it gets as far as the state service,
    whether or not the state is there already: line 63 has no guard. *)
Lemma build_always_creates (provider env : string) (local_backend verbose : bool)
    (w w' : World) :
  build K X provider env local_backend verbose w = (Ret tt, w') ->
  exists before after, calls w' = calls w ++ before ++ State Create :: after.
Proof.
  rewrite build_run.
  destruct (provision K X provider env local_backend verbose w) as [[[]|e] w1] eqn:Hprov;
    [| discriminate].
  pose proof (parse_config_same_world K X w1) as Hsame.
  destruct (_parse_config K X w1) as [[[url kubeconfig]|e] w2]; [| discriminate].
  cbn in Hsame. subst w2. rewrite persist_run. intros H. injection H as <-.
  destruct (emits_run _ _ _ _ _ (provision_emits K X _ _ _ _) Hprov) as (evs & Hext & _).
  exists evs. eexists. cbn. rewrite Hext. unfold persist_calls.
  rewrite <- app_assoc. reflexivity.
Qed.

(** [init] calls [create] exactly when the state is not there: lines 47-48. *)
Lemma init_creates_if_absent (url token : json) (w : World) :
  exists w' evs, init K url token w = (Ret tt, w') /\ extends w w' evs /\
  (In (State Create) evs <-> StateService.is_created (state_service w) = false).
Proof.
  unfold init, extends. rewrite run_bind. cbn.
  destruct (StateService.is_created (state_service w)) eqn:Hcreated; cbn.
  - rewrite run_bind. cbn. rewrite run_bind, state_call_run. cbn.
    rewrite state_call_run. cbn.
    eexists. eexists. split; [reflexivity |]. cbn. rewrite <- app_assoc.
    split; [reflexivity |]. cbn.
    split; [| discriminate]. intros [H|[H|[]]]; discriminate.
  - rewrite run_bind, state_call_run. cbn. rewrite run_bind, state_call_run. cbn.
    rewrite state_call_run. cbn.
    eexists. eexists. split; [reflexivity |]. cbn. rewrite <- !app_assoc.
    split; [reflexivity |]. cbn. split; [reflexivity | now left].
Qed.

End Build.

(** ** Workspace preparation *)

Section TfInit.

Context (K : Constants) (X : Externals).

Lemma copy_tree_calls (src dst : string) (w w' : World) (o : outcome unit) :
  do_copy_tree X src dst w = (o, w') -> calls w' = calls w ++ [CopyTree src dst].
Proof.
  unfold do_copy_tree, fs_call. rewrite !run_bind. cbn. rewrite run_bind. cbn.
  destruct (copy_tree X src dst (fs w)); cbn; intros H; inversion H; reflexivity.
Qed.

(** The calls of [_tf_init] for a cloud provider whose environment check
    passes: the check, the copy when line 104 asks for it, and then calls
    that copy no tree. *)
Lemma tf_init_cloud_calls (provider env : string) (local_backend destroying : bool)
    (w w' : World) (o : outcome (option string)) :
  is_cloud_provider K provider = true ->
  check_environment X provider = true ->
  _tf_init K X provider env local_backend destroying w = (o, w') ->
  exists after,
    calls w' = calls w ++ [CheckEnvironment provider]
               ++ (if negb destroying
                      || negb (isdir (working_directory K provider env) (fs w))
                   then [CopyTree (template_of K provider env)
                                  (working_directory K provider env)]
                   else [])
               ++ after
    /\ forallb not_copy_tree after = true.
Proof.
  intros Hcloud Hcheck. unfold _tf_init. rewrite Hcloud.
  fold (template_of K provider env). fold (working_directory K provider env).
  rewrite run_bind. unfold do_check_environment at 1. rewrite run_bind. cbn.
  rewrite Hcheck. cbn. rewrite run_bind. cbn. rewrite run_bind.
  destruct (negb destroying || negb (isdir _ (fs w))); cbn [when].
  - match goal with
    | |- context [do_copy_tree X ?s ?d ?w0] =>
        destruct (do_copy_tree X s d w0) as [[[]|e] w1] eqn:Hcopy
    end; apply copy_tree_calls in Hcopy; cbn in Hcopy.
    + intros Hrun.
      apply emits_run with (P := not_copy_tree) in Hrun as (after & Hext & HP).
      * exists after. split; [| exact HP].
        rewrite Hext, Hcopy. now rewrite <- !app_assoc.
      * unfold do_shutil_copy, tf_exists_workspace, tf, fs_call. frame.
    + intros Hrun. injection Hrun as <- <-. exists []. split; [| reflexivity].
      rewrite Hcopy. now rewrite app_nil_r, <- !app_assoc.
  - intros Hrun.
    apply emits_run with (P := not_copy_tree) in Hrun as (after & Hext & HP).
    + exists after. split; [| exact HP]. rewrite Hext. cbn.
      now rewrite <- !app_assoc.
    + unfold do_shutil_copy, tf_exists_workspace, tf, fs_call. frame.
Qed.





End TfInit.

(** ** Removing files *)

Lemma is_under_self (d : string) : is_under d d = true.
Proof. unfold is_under. now rewrite String.eqb_refl. Qed.

Lemma rmtree_subseteq (u : string -> bool) (d : string) (files : gmap string node) :
  rmtree u d files ⊆ files.
Proof. unfold rmtree. destruct (isdir d files); [apply map_filter_subseteq | done]. Qed.

Lemma rmtree_under (u : string -> bool) (d p : string) (files : gmap string node) :
  isdir d files = true -> is_under d p = true ->
  rmtree u d files !! p = None \/ u p = true.
Proof.
  intros Hdir Hunder. destruct (u p) eqn:Hu; [now right | left].
  unfold rmtree. rewrite Hdir.
  apply map_lookup_filter_None. right. intros x _ [H | H]; cbn in H; congruence.
Qed.

Lemma isdir_subseteq (p : string) (files files' : gmap string node) :
  files' ⊆ files -> isdir p files = false -> isdir p files' = false.
Proof.
  intros Hsub. unfold isdir.
  destruct (files' !! p) as [[|doc]|] eqn:Hp; try reflexivity.
  now rewrite (lookup_weaken _ _ _ _ Hp Hsub).
Qed.

Lemma remove_if_exists_run (X : Externals) (p : string) (w : World) :
  remove_if_exists X p w =
  match fs w !! p with
  | None => (Ret tt, w)
  | Some (File _) =>
      if undeletable X p
      then (Raise (PermissionError p),
            {| fs := fs w; state_service := state_service w;
               calls := calls w ++ [OsRemove p] |})
      else (Ret tt, {| fs := delete p (fs w); state_service := state_service w;
                       calls := calls w ++ [OsRemove p] |})
  | Some Dir =>
      (Raise (IsADirectoryError p),
       {| fs := fs w; state_service := state_service w;
          calls := calls w ++ [OsRemove p] |})
  end.
Proof.
  unfold remove_if_exists, path_exists, do_os_remove, os_remove.
  rewrite run_bind. cbn.
  destruct (fs w !! p) as [[|doc]|] eqn:Hp; cbn; [| | reflexivity];
    rewrite run_bind; cbn; rewrite run_bind; cbn; rewrite Hp;
    [reflexivity | now destruct (undeletable X p)].
Qed.

Lemma remove_if_exists_returns (X : Externals) (p : string) (w w' : World) :
  remove_if_exists X p w = (Ret tt, w') ->
  fs w' ⊆ fs w /\ fs w' !! p = None /\ state_service w' = state_service w.
Proof.
  rewrite remove_if_exists_run.
  destruct (fs w !! p) as [[|doc]|] eqn:Hp; [discriminate | |].
  - destruct (undeletable X p); [discriminate |].
    intros H. injection H as <-. cbn.
    split; [apply delete_subseteq | split; [apply lookup_delete_eq | reflexivity]].
  - intros H. injection H as <-. now split.
Qed.

(** ** [destroy] *)

Section Destroy.

Context (K : Constants) (X : Externals).

Lemma remove_build_files_removes (w w' : World) :
  _remove_build_files K X w = (Ret tt, w') -> artifacts_removed K X w w'.
Proof.
  unfold _remove_build_files. intros H.
  apply bind_returns in H as ([] & w1 & H1 & H).
  apply bind_returns in H as ([] & w2 & H2 & H).
  apply bind_returns in H as ([] & w3 & H3 & H).
  apply bind_returns in H as ([] & w4 & H4 & H).
  rewrite state_call_run in H1. injection H1 as <-.
  unfold do_rmtree in H2. rewrite run_bind in H2. cbn in H2.
  rewrite run_bind in H2. cbn in H2. injection H2 as <-.
  apply remove_if_exists_returns in H3 as (Hsub3 & Hnone3 & Hst3).
  apply remove_if_exists_returns in H4 as (Hsub4 & Hnone4 & Hst4).
  apply remove_if_exists_returns in H as (Hsub5 & Hnone5 & Hst5).
  cbn in Hsub3, Hst3.
  assert (Hsub : fs w' ⊆ rmtree (undeletable X) (TF_DIR K) (fs w))
    by (etrans; [exact Hsub5 | etrans; [exact Hsub4 | exact Hsub3]]).
  unfold artifacts_removed. repeat split.
  - now rewrite Hst5, Hst4, Hst3.
  - intros p Hdir Hunder.
    destruct (rmtree_under (undeletable X) _ _ _ Hdir Hunder) as [Hgone | Hstuck];
      [left | now right].
    eapply lookup_weaken_None; [exact Hgone | exact Hsub].
  - eapply lookup_weaken_None; [exact Hnone3 | etrans; [exact Hsub5 | exact Hsub4]].
  - eapply lookup_weaken_None; [exact Hnone4 | exact Hsub5].
  - exact Hnone5.
Qed.

Lemma remove_build_files_returns (w : World) :
  isdir (TF_STATE K) (fs w) = false ->
  isdir (TF_CONFIG_JSON K) (fs w) = false ->
  isdir (TF_STATE_BACKUP K) (fs w) = false ->
  undeletable X (TF_STATE K) = false ->
  undeletable X (TF_CONFIG_JSON K) = false ->
  undeletable X (TF_STATE_BACKUP K) = false ->
  exists w', _remove_build_files K X w = (Ret tt, w').
Proof.
  intros Hs Hc Hb Hus Huc Hub. unfold _remove_build_files.
  rewrite run_bind, state_call_run.
  unfold do_rmtree. rewrite run_bind. cbn. rewrite run_bind. cbn.
  rewrite run_bind. cbn.
  pose proof (rmtree_subseteq (undeletable X) (TF_DIR K) (fs w)) as Hsub.
  apply (isdir_subseteq _ _ _ Hsub) in Hs, Hc, Hb.
  set (files := rmtree (undeletable X) (TF_DIR K) (fs w)) in *.
  clearbody files. clear Hsub.
  assert (Hstep : forall p q (fl : gmap string node),
             isdir q fl = false -> isdir q (delete p fl) = false).
  { intros p q fl. apply isdir_subseteq, delete_subseteq. }
  assert (Hone : forall p (w0 : World),
             isdir p (fs w0) = false -> undeletable X p = false ->
             exists w1, remove_if_exists X p w0 = (Ret tt, w1)
                        /\ (fs w1 = fs w0 \/ fs w1 = delete p (fs w0))).
  { intros p w0 Hdir Hu. rewrite remove_if_exists_run. unfold isdir in Hdir.
    destruct (fs w0 !! p) as [[|doc]|]; [discriminate | |].
    - rewrite Hu. eexists. split; [reflexivity | now right].
    - eexists. split; [reflexivity | now left]. }
  rewrite run_bind.
  match goal with
  | |- context [remove_if_exists X (TF_STATE K) ?w0] =>
      destruct (Hone (TF_STATE K) w0 Hs Hus) as (w1 & -> & Hfs1)
  end.
  rewrite run_bind.
  assert (Hc1 : isdir (TF_CONFIG_JSON K) (fs w1) = false)
    by (destruct Hfs1 as [-> | ->]; cbn; auto).
  assert (Hb1 : isdir (TF_STATE_BACKUP K) (fs w1) = false)
    by (destruct Hfs1 as [-> | ->]; cbn; auto).
  destruct (Hone (TF_CONFIG_JSON K) w1 Hc1 Huc) as (w2 & -> & Hfs2).
  assert (Hb2 : isdir (TF_STATE_BACKUP K) (fs w2) = false)
    by (destruct Hfs2 as [-> | ->]; auto).
  destruct (Hone (TF_STATE_BACKUP K) w2 Hb2 Hub) as (w3 & -> & _).
  now exists w3.
Qed.

Lemma destroy_run (provider env : string) (verbose : bool) (w : World) :
  destroy K X provider env verbose w =
  match prepare_destroy K X provider env verbose w with
  | (Raise e, w1) => (Raise e, w1)
  | (Ret directory, w1) =>
      (_delete_resources K X;;
       tf X (Destroy directory (_get_vars K X provider));;
       _remove_build_files K X) w1
  end.
Proof.
  unfold destroy, prepare_destroy. rewrite !run_bind.
  destruct (tf X (SetVerbose verbose) w) as [[[]|e] w0]; [| reflexivity].
  rewrite !run_bind.
  destruct (_tf_init K X provider env false true w0) as [[d|e] w1]; reflexivity.
Qed.

Lemma delete_resources_run (w : World) :
  _delete_resources K X w =
  if StateService.has_section (BACKEND K) (state_service w) then
    (match requests_delete X (cleanup_url K X (state_service w)) with
     | Ret _ => Ret tt
     | Raise e => Raise e
     end,
     {| fs := fs w; state_service := state_service w;
        calls := calls w ++ [RequestsDelete (cleanup_url K X (state_service w))] |})
  else (Ret tt, w).
Proof.
  unfold _delete_resources, cleanup_url. rewrite run_bind. cbn.
  destruct (StateService.has_section _ _); [| reflexivity]. cbn.
  rewrite run_bind. cbn. unfold do_requests_delete. rewrite run_bind. cbn.
  now destruct (requests_delete X _).
Qed.

(** The calls of a [destroy] whose preparation returns: the preparation,
    the cleanup request when the state has a BACKEND section, and then
    either nothing or the engine's destroy followed by the teardown. *)
Lemma destroy_calls (provider env : string) (verbose : bool) (w w1 w' : World)
    (directory : option string) (o : outcome unit) :
  prepare_destroy K X provider env verbose w = (Ret directory, w1) ->
  destroy K X provider env verbose w = (o, w') ->
  exists prep rest,
    calls w' = calls w ++ prep
               ++ (if StateService.has_section (BACKEND K) (state_service w)
                   then [RequestsDelete (cleanup_url K X (state_service w))]
                   else [])
               ++ rest
    /\ forallb is_preparation prep = true
    /\ (rest = [] \/
        exists teardown,
          rest = Tf (Destroy directory (_get_vars K X provider)) :: teardown
          /\ forallb is_teardown teardown = true).
Proof.
  intros Hprep. rewrite destroy_run, Hprep.
  pose proof (keeps_state_run _ _ _ _ (prepare_destroy_keeps_state K X _ _ _) Hprep)
    as Hstate.
  destruct (emits_run _ _ _ _ _ (prepare_destroy_emits K X _ _ _) Hprep)
    as (prep & Hext & Hquiet).
  rewrite run_bind, delete_resources_run, Hstate.
  set (request := if StateService.has_section (BACKEND K) (state_service w)
                  then [RequestsDelete (cleanup_url K X (state_service w))]
                  else []).
  assert (Hgo : forall w2 : World,
             calls w2 = calls w ++ prep ++ request ->
             (tf X (Destroy directory (_get_vars K X provider));;
              _remove_build_files K X) w2 = (o, w') ->
             exists prep0 rest,
               calls w' = calls w ++ prep0 ++ request ++ rest
               /\ forallb is_preparation prep0 = true
               /\ (rest = [] \/
                   exists teardown,
                     rest = Tf (Destroy directory (_get_vars K X provider)) :: teardown
                     /\ forallb is_teardown teardown = true)).
  { intros w2 Hw2. rewrite run_bind.
    destruct (tf X _ w2) as [[[]|e] w3] eqn:Htf; apply tf_calls in Htf; intros Hrun.
    - destruct (emits_run _ _ _ _ _ (remove_build_files_emits K X) Hrun)
        as (teardown & Hext' & Hteardown).
      exists prep. eexists. split; [| split; [exact Hquiet | right]].
      + rewrite Hext', Htf, Hw2. rewrite <- !app_assoc. reflexivity.
      + eexists. split; [reflexivity | exact Hteardown].
    - injection Hrun as <- <-.
      exists prep. eexists. split; [| split; [exact Hquiet | right]].
      + rewrite Htf, Hw2. rewrite <- !app_assoc. reflexivity.
      + exists []. split; reflexivity. }
  subst request.
  destruct (StateService.has_section (BACKEND K) (state_service w)).
  - destruct (requests_delete X _).
    + apply Hgo. cbn. rewrite Hext. now rewrite <- app_assoc.
    + intros Hrun. injection Hrun as <- <-.
      exists prep, []. cbn. split; [| split; [exact Hquiet | now left]].
      rewrite Hext. now rewrite <- app_assoc.
  - apply Hgo. rewrite Hext. now rewrite app_nil_r.
Qed.





(** C1 as the code has it: a [destroy] that returns has run
    [_remove_build_files] to its end, so the persisted state is deleted and
    the state file, its backup and the JSON config are gone; of the tree at
    [TF_DIR], which [shutil.rmtree] removes with [ignore_errors=True], only
    paths whose removal failed are left.  Whether the cleanup call was made
    or skipped, and whatever it answered, makes no difference. *)
Theorem destroy_that_returns_removes_artifacts (provider env : string)
    (verbose : bool) (w w' : World) :
  destroy K X provider env verbose w = (Ret tt, w') ->
  exists (directory : option string) (w1 w2 : World),
    prepare_destroy K X provider env verbose w = (Ret directory, w1) /\
    (_delete_resources K X;;
     tf X (Destroy directory (_get_vars K X provider))) w1 = (Ret tt, w2) /\
    _remove_build_files K X w2 = (Ret tt, w') /\
    artifacts_removed K X w2 w'.
Proof.
  rewrite destroy_run.
  destruct (prepare_destroy K X provider env verbose w) as [[d|e] w1];
    [| discriminate].
  intros H.
  apply bind_returns in H as ([] & w0 & Hclean & H).
  apply bind_returns in H as ([] & w2 & Htf & H).
  exists d, w1, w2. split; [reflexivity |]. split; [| split].
  - now rewrite run_bind, Hclean.
  - exact H.
  - now apply remove_build_files_removes.
Qed.

(** Such a [destroy] exists whenever its steps succeed: preparation
    returns, the cleanup call (when made) is answered, the engine's destroy
    succeeds, no directory stands where an artifact file is expected, and
    the three artifact files can be deleted. *)
Lemma destroy_returns (provider env : string) (verbose : bool) (w w1 : World)
    (directory : option string) (files : gmap string node) :
  prepare_destroy K X provider env verbose w = (Ret directory, w1) ->
  (StateService.has_section (BACKEND K) (state_service w1) = true ->
   exists status, requests_delete X (cleanup_url K X (state_service w1)) = Ret status) ->
  terraform X (Destroy directory (_get_vars K X provider)) (fs w1) = Some files ->
  isdir (TF_STATE K) files = false ->
  isdir (TF_CONFIG_JSON K) files = false ->
  isdir (TF_STATE_BACKUP K) files = false ->
  undeletable X (TF_STATE K) = false ->
  undeletable X (TF_CONFIG_JSON K) = false ->
  undeletable X (TF_STATE_BACKUP K) = false ->
  exists w', destroy K X provider env verbose w = (Ret tt, w').
Proof.
  intros Hprep Hanswer Hengine Hs Hc Hb Hus Huc Hub.
  rewrite destroy_run, Hprep, run_bind, delete_resources_run.
  destruct (StateService.has_section _ _).
  - destruct Hanswer as (status & ->); [reflexivity |].
    rewrite run_bind. unfold tf at 1, fs_call. rewrite run_bind. cbn.
    rewrite run_bind. cbn. rewrite Hengine. cbn.
    now apply remove_build_files_returns.
  - rewrite run_bind. unfold tf at 1, fs_call. rewrite run_bind. cbn.
    rewrite run_bind. cbn. rewrite Hengine. cbn.
    now apply remove_build_files_returns.
Qed.

End Destroy.

(** ** The properties on the sample setting *)

(** The spec's example: [abc], [xyz] and [us] in the environment, and a
    provider that needs no credentials. *)
Lemma get_vars_config_dir_and_credentials_witness :
  _get_vars Sample.constants Sample.externals "AWS"
  = "--var config_dir=/home/op/project --var aws_access_key_id=abc --var aws_secret_access_key=xyz --var region=us"
  /\ _get_vars Sample.constants Sample.externals "DOCKER"
     = "--var config_dir=/home/op/project ".
Proof.
  destruct (get_vars_config_dir_and_credentials Sample.constants Sample.externals)
    as (_ & Hcredentials & Hlocal).
  destruct (Hcredentials "abc" "xyz" "us" eq_refl eq_refl eq_refl)
    as (rest & Haws & Hrest).
  split.
  - change (AWS Sample.constants) with "AWS" in Haws.
    rewrite Haws, Hrest; [reflexivity | discriminate].
  - apply Hlocal; discriminate.
Defined.


(** The spec's example: hostname [h] beside ip [1.2.3.4], port 8080, path
    [/api]. *)
Lemma parse_config_prefers_hostname_witness :
  _parse_config Sample.constants Sample.externals Sample.deployed
  = (Ret ("http://h:8080/api", JStr "kube"), Sample.deployed).
Proof.
  apply (parse_config_prefers_hostname Sample.constants Sample.externals
           Sample.deployed Sample.artifact
           [("hostname", JStr "h"); ("ip", JStr "1.2.3.4")] []
           (JStr "h") (JInt 8080) 8080 (JStr "/api") (JStr "kube"));
    try reflexivity.
  left. reflexivity.
Defined.

(** An empty hostname beside ip [1.2.3.4], and beside an empty ip. *)
Lemma parse_config_presence_is_truthiness_witness :
  _parse_config Sample.constants Sample.externals
    (Sample.deployed_with Sample.artifact_empty_hostname)
  = (Ret ("http://1.2.3.4:8080/api", JStr "kube"),
     Sample.deployed_with Sample.artifact_empty_hostname)
  /\ _parse_config Sample.constants Sample.externals
       (Sample.deployed_with Sample.artifact_empty_both)
     = (Raise (HostnameError "Hostname not present"),
        Sample.deployed_with Sample.artifact_empty_both).
Proof.
  split.
  - apply (proj1 (parse_config_presence_is_truthiness Sample.constants
                    Sample.externals
                    (Sample.deployed_with Sample.artifact_empty_hostname)
                    Sample.artifact_empty_hostname
                    [("hostname", JStr ""); ("ip", JStr "1.2.3.4")] []
                    eq_refl eq_refl eq_refl)
             "1.2.3.4" 8080 (JStr "/api") (JStr "kube"));
      [reflexivity | discriminate | reflexivity | reflexivity | reflexivity].
  - apply (proj2 (parse_config_presence_is_truthiness Sample.constants
                    Sample.externals
                    (Sample.deployed_with Sample.artifact_empty_both)
                    Sample.artifact_empty_both
                    [("hostname", JStr ""); ("ip", JStr "")] []
                    eq_refl eq_refl eq_refl)).
    reflexivity.
Defined.

(** The port is coerced with [int]: its decimal text, with blanks around
    it, with a sign or with underscores between digits, and a float, which
    is truncated, give the same URL. *)
Example parse_config_coerces_port :
  Forall (fun port_field =>
            parse_raw_config Sample.externals
              (JObj [("backend_domain", JArr [JObj [("hostname", JStr "h")]]);
                     ("backend_port", port_field);
                     ("backend_path", JStr "/api");
                     ("kubeconfig", JStr "kube")])
            = Ret ("http://h:8080/api", JStr "kube"))
    [JInt 8080; JStr "8080"; JStr " 8080 "; JStr "+8080"; JStr "8_080";
     JStr "08080"; JFloat (Finite 8080 0); JFloat (Finite 16161 (-1));
     JFloat (Finite 505 4)].
Proof. repeat constructor. Qed.

(** What [int] does not read raises: text that is no numeral, a separator
    character (code 28) that [str.strip] would take for a blank, an
    infinite float and a value that is no number. *)
Example parse_config_rejects_port :
  let parse port_field :=
    parse_raw_config Sample.externals
      (JObj [("backend_domain", JArr [JObj [("hostname", JStr "h")]]);
             ("backend_port", port_field);
             ("backend_path", JStr "/api");
             ("kubeconfig", JStr "kube")]) in
  parse (JStr "http") = Raise ValueError /\
  parse (JStr "") = Raise ValueError /\
  parse (JStr "80 80") = Raise ValueError /\
  parse (JStr "_8080") = Raise ValueError /\
  parse (JStr (String (ascii_of_nat 28) "8080")) = Raise ValueError /\
  parse (JFloat (Infinity false)) = Raise OverflowError /\
  parse (JFloat NaN) = Raise ValueError /\
  parse JNull = Raise TypeError /\
  parse (JArr [JInt 8080]) = Raise TypeError.
Proof. repeat split. Qed.

(** C1 fails as stated: with state written and a backend that cannot be
    reached, the cleanup request raises, [destroy] stops there, and the
    persisted state and the generated artifacts all stay. *)
Lemma destroy_unreachable_backend_leaves_artifacts :
  exists w',
    destroy Sample.constants Sample.externals_unreachable "AWS" "dev" false
      Sample.deployed = (Raise ConnectionError, w') /\
    StateService.is_created (state_service w') = true /\
    isdir ".terraform" (fs w') = true /\
    fs w' !! "terraform.tfstate" = Some (File None) /\
    fs w' !! "config.json" = Some (File (Some Sample.artifact)).
Proof.
  eexists. split; [vm_compute; reflexivity |].
  repeat split; vm_compute; reflexivity.
Qed.

(** The same when the engine's destroy fails. *)
Example destroy_failing_engine_leaves_artifacts :
  exists w',
    destroy Sample.constants Sample.externals_failing_destroy "AWS" "dev" false
      Sample.deployed = (Raise ProvisioningError, w') /\
    StateService.is_created (state_service w') = true /\
    isdir ".terraform" (fs w') = true /\
    fs w' !! "terraform.tfstate" = Some (File None) /\
    fs w' !! "config.json" = Some (File (Some Sample.artifact)).
Proof.
  eexists. split; [vm_compute; reflexivity |].
  repeat split; vm_compute; reflexivity.
Qed.

(** With a backend that answers, [destroy] returns and everything is
    removed. *)
Lemma destroy_that_returns_removes_artifacts_witness :
  exists w2 w',
    (destroy Sample.constants Sample.externals "AWS" "dev" false Sample.deployed).2 = w' /\
    _remove_build_files Sample.constants Sample.externals w2 = (Ret tt, w') /\
    artifacts_removed Sample.constants Sample.externals w2 w'.
Proof.
  destruct (destroy_that_returns_removes_artifacts Sample.constants Sample.externals
              "AWS" "dev" false Sample.deployed
              (destroy Sample.constants Sample.externals "AWS" "dev" false
                 Sample.deployed).2)
    as (d & w1 & w2 & _ & _ & Hrun & Hgone).
  - vm_compute. reflexivity.
  - exists w2. eexists. split; [reflexivity |]. split; assumption.
Defined.

(** [shutil.rmtree] is called with [ignore_errors=True]: where the tree at
    [.terraform] cannot be removed, [destroy] returns all the same, the
    tree stays and the three files go. *)
Example destroy_ignores_rmtree_errors :
  exists w',
    destroy Sample.constants Sample.externals_stuck_tree "AWS" "dev" false
      Sample.deployed = (Ret tt, w') /\
    StateService.is_created (state_service w') = false /\
    isdir ".terraform" (fs w') = true /\
    fs w' !! ".terraform/plugins" = Some Dir /\
    fs w' !! "terraform.tfstate" = None /\
    fs w' !! "terraform.tfstate.backup" = None /\
    fs w' !! "config.json" = None.
Proof.
  eexists. split; [vm_compute; reflexivity |].
  repeat split; vm_compute; reflexivity.
Qed.

(** With no state there is no cleanup request, and the artifacts go all
    the same. *)
Example destroy_without_state_removes_artifacts :
  exists w',
    destroy Sample.constants Sample.externals "AWS" "dev" false Sample.checkout
      = (Ret tt, w') /\
    forallb (fun e => match e with RequestsDelete _ => false | _ => true end)
      (calls w') = true /\
    StateService.is_created (state_service w') = false /\
    isdir ".terraform" (fs w') = false /\
    fs w' !! "terraform.tfstate" = None /\
    fs w' !! "terraform.tfstate.backup" = None /\
    fs w' !! "config.json" = None.
Proof.
  eexists. split; [vm_compute; reflexivity |].
  repeat split; vm_compute; reflexivity.
Qed.

(** A build of the fresh checkout returns with the state written. *)
Lemma build_persists_only_after_success_witness :
  exists w' url,
    build Sample.constants Sample.externals "AWS" "dev" false false Sample.checkout
      = (Ret tt, w') /\
    StateService.get "backend" "url" (state_service w') = JStr url /\
    stored (state_service w') = Some (config (state_service w')).
Proof.
  assert (Hrun : build Sample.constants Sample.externals "AWS" "dev" false false
                   Sample.checkout
                 = (Ret tt, (build Sample.constants Sample.externals "AWS" "dev"
                               false false Sample.checkout).2))
    by (vm_compute; reflexivity).
  destruct (build_persists_only_after_success _ _ _ _ _ _ _ _ _ Hrun)
    as (w1 & url & kubeconfig & d & before & _ & _ & _ & _ & _ & Hurl & _ & _ & Hstored).
  eexists. exists url. split; [exact Hrun |]. split; assumption.
Defined.

(** A build that fails at apply leaves no state behind. *)
Example build_failing_apply_writes_no_state :
  exists w',
    build Sample.constants
      (Sample.externals_of Sample.credentials
         (fun c files => match c with
                         | Apply _ _ => None
                         | _ => Sample.engine Sample.artifact c files
                         end)
         (fun _ => Ret 200))
      "AWS" "dev" false false Sample.checkout = (Raise ProvisioningError, w') /\
    state_service w' = state_service Sample.checkout.
Proof. eexists. split; vm_compute; reflexivity. Qed.



(** In a destroy the working directory that is there is not copied again;
    one that is not there is. *)
Example tf_init_destroying_copies_if_absent :
  ~ In (CopyTree "infra/aws/dev" "infra/aws/__working_dev")
       (calls (_tf_init Sample.constants Sample.externals "AWS" "dev" false true
                 Sample.deployed).2)
  /\ In (CopyTree "infra/aws/dev" "infra/aws/__working_dev")
        (calls (_tf_init Sample.constants Sample.externals "AWS" "dev" false true
                  Sample.checkout).2).
Proof.
  split.
  - vm_compute. intuition discriminate.
  - vm_compute. right. now left.
Qed.

(** With [backend_domain=[{}]] the build of the fresh checkout raises
    [HostnameError] and the state service is as it was. *)
Lemma hostname_error_precedes_persistence_witness :
  exists w1,
    build Sample.constants Sample.externals_no_domain "AWS" "dev" false false
      Sample.checkout = (Raise (HostnameError "Hostname not present"), w1) /\
    state_service w1 = state_service Sample.checkout.
Proof.
  pose (w1 := (provision Sample.constants Sample.externals_no_domain "AWS" "dev"
                 false false Sample.checkout).2).
  destruct (hostname_error_precedes_persistence Sample.constants
              Sample.externals_no_domain w1 Sample.artifact_no_domain [] [])
    as (_ & Hbuild).
  - vm_compute. reflexivity.
  - reflexivity.
  - reflexivity.
  - reflexivity.
  - destruct (Hbuild "AWS" "dev" false false Sample.checkout) as (Hrun & Hstate & _).
    + vm_compute. reflexivity.
    + exists w1. split; assumption.
Defined.



(** C9 against the code: the state is there, [build] succeeds, and
    [create] is called all the same, between apply and the first [set];
    [init] in the same world does not call it. *)
Theorem build_creates_state_that_exists :
  StateService.is_created (state_service Sample.deployed) = true /\
  (exists w',
      build Sample.constants Sample.externals "DOCKER" "dev" false false
        Sample.deployed = (Ret tt, w') /\
      calls w'
      = [Tf (SetVerbose false); CheckEnvironment "DOCKER";
         Tf (TfInit (Some "infra/docker"));
         Tf (Plan (Some "infra/docker") "--var config_dir=/home/op/project ");
         Tf (Apply (Some "infra/docker") "--var config_dir=/home/op/project ");
         State Create;
         State (SetSection "backend"
                  [("url", JStr "http://h:8080/api");
                   ("token", JStr "3f2b8c1e-5d4a-4e1b-9c7a-0a1b2c3d4e5f")]);
         State (SetSection "infrastructure" [("kubeconfig", JStr "kube")]);
         State Write]) /\
  (exists w',
      init Sample.constants (JStr "http://h:8080/api") (JStr "t") Sample.deployed
        = (Ret tt, w') /\
      calls w'
      = [State (SetSection "backend"
                  [("url", JStr "http://h:8080/api"); ("token", JStr "t")]);
         State Write]).
Proof.
  split; [reflexivity |].
  split; eexists; (split; [vm_compute; reflexivity | reflexivity]).
Qed.

(** * More of the module *)

(** ** Workspace preparation, the other branches *)

Section TfInitMore.

Context (K : Constants) (X : Externals).

Lemma check_environment_returns (provider : string) (w w' : World) :
  do_check_environment X provider w = (Ret tt, w') ->
  check_environment X provider = true /\
  w' = {| fs := fs w; state_service := state_service w;
          calls := calls w ++ [CheckEnvironment provider] |}.
Proof.
  unfold do_check_environment. rewrite run_bind. cbn.
  destruct (check_environment X provider); intros H; [| discriminate].
  now injection H as <-.
Qed.

Lemma shutil_copy_calls (src : option string) (dst : string) (w w' : World)
    (o : outcome unit) :
  do_shutil_copy X src dst w = (o, w') -> calls w' = calls w ++ [ShutilCopy src dst].
Proof.
  unfold do_shutil_copy, fs_call. rewrite !run_bind. cbn. rewrite run_bind. cbn.
  destruct (shutil_copy X src dst (fs w)); cbn; intros H; inversion H; reflexivity.
Qed.

Lemma when_calls (b : bool) (m : M unit) (e : Event) (w w' : World)
    (o : outcome unit) :
  (forall w0 w0' o0, m w0 = (o0, w0') -> calls w0' = calls w0 ++ [e]) ->
  when b m w = (o, w') ->
  calls w' = calls w ++ (if b then [e] else []).
Proof.
  intros Hm. destruct b; cbn.
  - apply Hm.
  - intros H. injection H as <- <-. now rewrite app_nil_r.
Qed.

Lemma exists_workspace_returns (directory env : string) (w w' : World) (known : bool) :
  tf_exists_workspace X directory env w = (Ret known, w') ->
  exists_workspace X directory env (fs w) = Some known /\
  fs w' = fs w /\
  calls w' = calls w ++ [Tf (ExistsWorkspace directory env)].
Proof.
  unfold tf_exists_workspace. rewrite !run_bind. cbn. rewrite run_bind. cbn.
  destruct (exists_workspace X directory env (fs w)) as [b|]; cbn; intros H;
    [| discriminate].
  inversion H. now subst.
Qed.

(** X1: for a local provider ([DOCKER] or [MINIKUBE]) whose environment
    check passes, [_tf_init] does nothing but initialise the engine in the
    provider's own directory: no template is copied, no local backend
    config is copied and no workspace is looked up, created or selected,
    whatever [env], [local_backend] and [destroying] are.  It returns that
    directory, or raises when the engine's init fails. *)
Theorem tf_init_local_provider_only_inits (provider env : string)
    (local_backend destroying : bool) (w : World) :
  is_cloud_provider K provider = false ->
  check_environment X provider = true ->
  _tf_init K X provider env local_backend destroying w =
    let directory := PROVIDER_DICT K !! provider in
    let log := calls w ++ [CheckEnvironment provider; Tf (TfInit directory)] in
    match terraform X (TfInit directory) (fs w) with
    | Some files =>
        (Ret directory,
         {| fs := files; state_service := state_service w; calls := log |})
    | None =>
        (Raise ProvisioningError,
         {| fs := fs w; state_service := state_service w; calls := log |})
    end.
Proof.
  intros Hlocal Hcheck. unfold _tf_init. rewrite Hlocal.
  rewrite run_bind. unfold do_check_environment. rewrite run_bind. cbn.
  rewrite Hcheck. cbn. rewrite run_bind. unfold tf. rewrite run_bind. cbn.
  unfold fs_call. rewrite run_bind. cbn.
  destruct (terraform X _ (fs w)); cbn; now rewrite <- app_assoc.
Qed.

(** X2: when [_tf_init] returns for a cloud provider, it returns the
    working directory, the state service is as it was, and its calls are,
    in this order: the environment check, the copy of the template (unless
    destroying with the working directory there), the copy of the local
    backend config (exactly when [local_backend] is set), the engine's
    init, the workspace lookup, the creation of the workspace (exactly
    when the lookup answered that it does not exist) and its selection. *)
Theorem tf_init_cloud_call_sequence (provider env : string)
    (local_backend destroying : bool) (w w' : World) (directory : option string) :
  is_cloud_provider K provider = true ->
  _tf_init K X provider env local_backend destroying w = (Ret directory, w') ->
  let wd := working_directory K provider env in
  directory = Some wd /\
  state_service w' = state_service w /\
  exists (known : bool) (files : gmap string node),
    exists_workspace X wd env files = Some known /\
    calls w' =
      calls w
      ++ [CheckEnvironment provider]
      ++ (if negb destroying || negb (isdir wd (fs w))
          then [CopyTree (template_of K provider env) wd] else [])
      ++ (if local_backend
          then [ShutilCopy (LOCAL_CONFIG_DICT K !! provider) wd] else [])
      ++ [Tf (TfInit (Some wd)); Tf (ExistsWorkspace wd env)]
      ++ (if known then [] else [Tf (NewWorkspace wd env)])
      ++ [Tf (SelectWorkspace wd env)].
Proof.
  intros Hcloud Hrun. cbv zeta.
  pose proof (keeps_state_run _ _ _ _ (tf_init_keeps_state K X _ _ _ _) Hrun) as Hstate.
  unfold _tf_init in Hrun. rewrite Hcloud in Hrun.
  fold (template_of K provider env) in Hrun.
  fold (working_directory K provider env) in Hrun.
  apply bind_returns in Hrun as ([] & w0 & Hcheck & Hrun).
  apply check_environment_returns in Hcheck as (_ & ->).
  apply bind_returns in Hrun as (present & w1 & Hread & Hrun).
  cbn in Hread. injection Hread as <- <-.
  apply bind_returns in Hrun as ([] & w2 & Hcopy & Hrun).
  apply (when_calls _ _ _ _ _ _ (copy_tree_calls X _ _)) in Hcopy.
  apply bind_returns in Hrun as ([] & w3 & Hlocal & Hrun).
  apply (when_calls _ _ _ _ _ _ (shutil_copy_calls _ _)) in Hlocal.
  apply bind_returns in Hrun as ([] & w4 & Hinit & Hrun).
  apply tf_calls in Hinit.
  apply bind_returns in Hrun as (known & w5 & Hknown & Hrun).
  apply exists_workspace_returns in Hknown as (Hknown & _ & Hlookup).
  apply bind_returns in Hrun as ([] & w6 & Hnew & Hrun).
  apply (when_calls _ _ _ _ _ _ (tf_calls X _)) in Hnew.
  apply bind_returns in Hrun as ([] & w7 & Hselect & Hrun).
  apply tf_calls in Hselect.
  cbn in Hrun. injection Hrun as <- <-.
  split; [reflexivity |]. split; [exact Hstate |].
  exists known, (fs w4). split; [exact Hknown |].
  rewrite Hselect, Hnew, Hlookup, Hinit, Hlocal, Hcopy. cbn [calls fs].
  destruct known; cbn [negb]; rewrite <- ?app_assoc; reflexivity.
Qed.

(** X3: a provider that [PROVIDER_DICT] does not know and that is not a
    local runtime is not rejected by the lookup: [PROVIDER_DICT.get] gives
    [None], the f-strings of lines 102-103 spell it out, and a build
    copies the tree [None/{env}] to [None/__working_{env}]; with
    [local_backend] the config it then copies is whatever
    [LOCAL_CONFIG_DICT.get] gives. *)
Theorem tf_init_unknown_provider_uses_none_path (provider env : string)
    (local_backend : bool) (w w' : World) (o : outcome (option string)) :
  PROVIDER_DICT K !! provider = None ->
  is_cloud_provider K provider = true ->
  check_environment X provider = true ->
  _tf_init K X provider env local_backend false w = (o, w') ->
  exists after,
    calls w' = calls w
               ++ [CheckEnvironment provider;
                   CopyTree ("None/" +:+ env) ("None/__working_" +:+ env)]
               ++ after
    /\ (forall src dst, In (ShutilCopy src dst) after ->
          local_backend = true /\ src = LOCAL_CONFIG_DICT K !! provider
          /\ dst = "None/__working_" +:+ env).
Proof.
  intros Hunknown Hcloud Hcheck. unfold _tf_init. rewrite Hcloud, Hunknown.
  rewrite run_bind. unfold do_check_environment at 1. rewrite run_bind. cbn.
  rewrite Hcheck. cbn. rewrite run_bind. cbn. rewrite run_bind.
  change (String "N" (String "o" (String "n" (String "e" (String "/" env)))))
    with ("None/" +:+ env).
  match goal with
  | |- context [do_copy_tree X ?s ?d ?w0] =>
      destruct (do_copy_tree X s d w0) as [[[]|e] w1] eqn:Hcopy
  end; apply copy_tree_calls in Hcopy; cbn in Hcopy.
  - rewrite run_bind.
    destruct (when local_backend _ w1) as [[[]|e] w2] eqn:Hlocal;
      apply (when_calls _ _ _ _ _ _ (shutil_copy_calls _ _)) in Hlocal.
    + intros Hrun.
      apply emits_run with (P := fun e => negb (match e with
                                                | ShutilCopy _ _ => true
                                                | _ => false
                                                end))
        in Hrun as (rest & Hext & HP).
      * eexists. split.
        -- rewrite Hext, Hlocal, Hcopy. rewrite <- !app_assoc. reflexivity.
        -- intros src dst Hin. apply in_app_or in Hin as [Hin|Hin].
           ++ destruct local_backend; [| destruct Hin].
              destruct Hin as [Hin|[]]. injection Hin as <- <-. now repeat split.
           ++ rewrite forallb_forall in HP. specialize (HP _ Hin). discriminate.
      * unfold tf_exists_workspace, tf, fs_call. frame.
    + intros Hrun. injection Hrun as <- <-. eexists. split.
      * rewrite Hlocal, Hcopy. rewrite <- !app_assoc. reflexivity.
      * intros src dst Hin.
        destruct local_backend; [| destruct Hin].
        destruct Hin as [Hin|[]]. injection Hin as <- <-. now repeat split.
  - intros Hrun. injection Hrun as <- <-. exists []. split.
    + rewrite Hcopy. now rewrite <- !app_assoc.
    + intros src dst [].
Qed.

End TfInitMore.

(** ** What [build] and [destroy] call, and in what order *)

Section Sequencing.

Context (K : Constants) (X : Externals).


(** X4: whatever happens, [build] never calls the engine's destroy, never
    sends the cleanup request, never removes a file or a tree and never
    deletes the state. *)
Theorem build_never_tears_down (provider env : string)
    (local_backend verbose : bool) (w : World) :
  exists evs,
    extends w (build K X provider env local_backend verbose w).2 evs /\
    forall e, In e evs -> build_may_call e = true.
Proof.
  assert (H : emits build_may_call (build K X provider env local_backend verbose)).
  { unfold build, _tf_init, _parse_config, state_call, do_check_environment,
      do_copy_tree, do_shutil_copy, tf_exists_workspace, tf, fs_call.
    frame. }
  destruct (H w) as (evs & Hext & HP). exists evs. split; [exact Hext |].
  now apply forallb_forall.
Qed.

(** X5: whatever happens, [destroy] never calls the engine's plan or
    apply, never copies a local backend config (line 72 passes
    [local_backend=False]), and never creates, sets or writes state: the
    only state call it can make is the deletion. *)
Theorem destroy_never_provisions (provider env : string) (verbose : bool)
    (w : World) :
  exists evs,
    extends w (destroy K X provider env verbose w).2 evs /\
    forall e, In e evs -> destroy_may_call e = true.
Proof.
  assert (H : emits destroy_may_call (destroy K X provider env verbose)).
  { unfold destroy, _tf_init, _delete_resources, _remove_build_files, url,
      state_call, do_rmtree, remove_if_exists, do_os_remove, do_requests_delete,
      do_check_environment, do_copy_tree, tf_exists_workspace, tf, fs_call.
    cbn [when]. frame. }
  destruct (H w) as (evs & Hext & HP). exists evs. split; [exact Hext |].
  now apply forallb_forall.
Qed.


End Sequencing.

(** ** Endpoint resolution and variables, the other cases *)

Section ParseConfigMore.

Context (K : Constants) (X : Externals).

(** X7: an artifact that is missing or malformed does not give
    [HostnameError]: with no file at [TF_CONFIG_JSON] the [open] raises
    [FileNotFoundError]; with no [backend_domain] key line 124 raises
    [KeyError]; with an empty [backend_domain] list it raises
    [IndexError]; and with a first entry that is a number (an integer or
    a float), a string, [null] or a list, line 125 raises
    [AttributeError].  The world is left as it
    was. *)
Theorem parse_config_malformed_artifact (w : World) :
  (fs w !! TF_CONFIG_JSON K = None ->
   _parse_config K X w = (Raise (FileNotFoundError (TF_CONFIG_JSON K)), w)) /\
  (forall fields,
      fs w !! TF_CONFIG_JSON K = Some (File (Some (JObj fields))) ->
      (dict_get "backend_domain" fields = None ->
       _parse_config K X w = (Raise (KeyError "backend_domain"), w)) /\
      (dict_get "backend_domain" fields = Some (JArr []) ->
       _parse_config K X w = (Raise IndexError, w)) /\
      (forall first rest,
          dict_get "backend_domain" fields = Some (JArr (first :: rest)) ->
          match first with
          | JNull | JBool _ | JInt _ | JFloat _ | JStr _ | JArr _ =>
              _parse_config K X w = (Raise AttributeError, w)
          | JObj _ => True
          end)).
Proof.
  split.
  - intros Hnone. unfold _parse_config. rewrite run_bind. cbn.
    unfold json_load. now rewrite Hnone.
  - intros fields Hfile. rewrite (parse_config_reads K X _ _ Hfile).
    unfold parse_raw_config. cbn. repeat split.
    + intros ->. reflexivity.
    + intros ->. reflexivity.
    + intros first rest ->. now destruct first.
Qed.

(** X8: when the first entry has no hostname, or one that is false
    ([null], the empty string), and an ip that is not, the ip is the
    domain of the URL. *)
Theorem parse_config_falls_back_to_ip (w : World) (raw : json)
    (fields : list (string * json)) (rest : list json)
    (ip : json) (port : Z) (path kubeconfig : json) :
  fs w !! TF_CONFIG_JSON K = Some (File (Some raw)) ->
  py_item raw "backend_domain" = Ret (JArr (JObj fields :: rest)) ->
  truthy (default JNull (dict_get "hostname" fields)) = false ->
  dict_get "ip" fields = Some ip ->
  truthy ip = true ->
  py_item raw "backend_port" ≫= py_int (int_unicode X) = Ret port ->
  py_item raw "backend_path" = Ret path ->
  py_item raw "kubeconfig" = Ret kubeconfig ->
  _parse_config K X w =
    (Ret ("http://" +:+ py_str (repr X) ip +:+ ":" +:+ str_of_int port
          +:+ py_str (repr X) path, kubeconfig), w).
Proof.
  intros Hfile Hfirst Hhost Hip Htruthy Hport Hpath Hkube.
  rewrite (parse_config_reads K X _ _ Hfile). f_equal.
  apply (parse_raw_config_url X raw fields rest ip); try assumption.
  unfold py_or. rewrite Hhost, Hip. reflexivity.
Qed.

(** X9: for the provider [GCP] the variables are [config_dir] and then
    the one token [--var credentials_path=...], with the value of
    [GOOGLE_APPLICATION_CREDENTIALS], or [None] when it is not set; none
    of the [AWS] variables is read. *)
Theorem get_vars_gcp (X' : Externals) :
  GCP K <> AWS K ->
  cwd X' = cwd X ->
  environ X' !! "GOOGLE_APPLICATION_CREDENTIALS"
    = environ X !! "GOOGLE_APPLICATION_CREDENTIALS" ->
  _get_vars K X (GCP K)
    = config_dir_var X +:+ "--var credentials_path="
      +:+ str_of_opt (environ X !! "GOOGLE_APPLICATION_CREDENTIALS")
  /\ _get_vars K X' (GCP K) = _get_vars K X (GCP K).
Proof.
  intros Hne Hcwd Henv. apply String.eqb_neq in Hne.
  rewrite !get_vars_unfold, Hne, String.eqb_refl. cbn.
  unfold config_dir_var. rewrite Hcwd, Henv. split; reflexivity.
Qed.

End ParseConfigMore.
(** ** [_remove_build_files], in full *)

Lemma path_exists_subseteq (p : string) (files files' : gmap string node) :
  files' ⊆ files -> path_exists p files' = true -> path_exists p files = true.
Proof.
  unfold path_exists. intros Hsub.
  destruct (files' !! p) as [x|] eqn:Hp; [| discriminate].
  now rewrite (lookup_weaken _ _ _ _ Hp Hsub).
Qed.

(** A directory tree is removed once: on what is left of it, and on any
    part of that, [rmtree] changes nothing. *)
Lemma rmtree_again (u : string -> bool) (d : string) (files files' : gmap string node) :
  files' ⊆ rmtree u d files -> rmtree u d files' = files'.
Proof.
  intros Hsub. unfold rmtree at 1.
  destruct (isdir d files') eqn:Hdir'; [| reflexivity].
  unfold rmtree in Hsub. destruct (isdir d files) eqn:Hdir.
  - apply map_filter_id. intros p x Hp.
    apply (lookup_weaken _ _ _ _ Hp) in Hsub.
    now apply map_lookup_filter_Some in Hsub as [_ HP].
  - now rewrite (isdir_subseteq _ _ _ Hsub Hdir) in Hdir'.
Qed.




Section Teardown.

Context (K : Constants) (X : Externals).

(** A guarded [os.remove] that returns: the path is gone, and the call was
    made exactly when the path was there. *)
Lemma remove_if_exists_returned (p : string) (w w' : World) :
  remove_if_exists X p w = (Ret tt, w') ->
  fs w' = delete p (fs w)
  /\ state_service w' = state_service w
  /\ calls w' = calls w ++ (if path_exists p (fs w) then [OsRemove p] else []).
Proof.
  rewrite remove_if_exists_run. unfold path_exists.
  destruct (fs w !! p) as [[|doc]|] eqn:Hp; [discriminate | |].
  - destruct (undeletable X p); [discriminate |].
    intros H. injection H as <-. now repeat split.
  - intros H. injection H as <-. repeat split.
    + symmetry. now apply delete_id.
    + now rewrite app_nil_r.
Qed.

(** A guarded [os.remove], whatever its outcome: files are only taken
    away, [os.remove] is called for the path alone and only when it is
    there, and so the error for a path that is not there is never raised. *)
Lemma remove_if_exists_guard (p : string) (w w' : World) (o : outcome unit) :
  remove_if_exists X p w = (o, w') ->
  fs w' ⊆ fs w
  /\ (forall q, o <> Raise (FileNotFoundError q))
  /\ exists evs,
       calls w' = calls w ++ evs
       /\ forall e, In e evs -> e = OsRemove p /\ path_exists p (fs w) = true.
Proof.
  rewrite remove_if_exists_run. unfold path_exists.
  destruct (fs w !! p) as [[|doc]|] eqn:Hp.
  - intros H. injection H as <- <-. cbn.
    split; [reflexivity |]. split; [discriminate |].
    exists [OsRemove p]. split; [reflexivity |].
    intros e [<- | []]. now split.
  - destruct (undeletable X p); intros H; injection H as <- <-; cbn.
    + split; [reflexivity |]. split; [discriminate |].
      exists [OsRemove p]. split; [reflexivity |].
      intros e [<- | []]. now split.
    + split; [apply delete_subseteq |]. split; [discriminate |].
      exists [OsRemove p]. split; [reflexivity |].
      intros e [<- | []]. now split.
  - intros H. injection H as <- <-.
    split; [reflexivity |]. split; [discriminate |].
    exists []. split; [now rewrite app_nil_r | intros e []].
Qed.

(** What a [_remove_build_files] that returns has done. *)
Lemma remove_build_files_returned (w w' : World) :
  _remove_build_files K X w = (Ret tt, w') ->
  let files := rmtree (undeletable X) (TF_DIR K) (fs w) in
  fs w' = delete (TF_STATE_BACKUP K)
            (delete (TF_CONFIG_JSON K) (delete (TF_STATE K) files))
  /\ state_service w' = StateService.delete (state_service w)
  /\ calls w' =
       calls w ++ [State Delete; Rmtree (TF_DIR K)]
       ++ (if path_exists (TF_STATE K) files then [OsRemove (TF_STATE K)] else [])
       ++ (if path_exists (TF_CONFIG_JSON K) (delete (TF_STATE K) files)
           then [OsRemove (TF_CONFIG_JSON K)] else [])
       ++ (if path_exists (TF_STATE_BACKUP K)
                (delete (TF_CONFIG_JSON K) (delete (TF_STATE K) files))
           then [OsRemove (TF_STATE_BACKUP K)] else []).
Proof.
  cbv zeta. unfold _remove_build_files. intros H.
  apply bind_returns in H as ([] & w1 & H1 & H).
  apply bind_returns in H as ([] & w2 & H2 & H).
  apply bind_returns in H as ([] & w3 & H3 & H).
  apply bind_returns in H as ([] & w4 & H4 & H).
  rewrite state_call_run in H1. injection H1 as <-.
  unfold do_rmtree in H2. rewrite run_bind in H2. cbn in H2.
  rewrite run_bind in H2. cbn in H2. injection H2 as <-.
  apply remove_if_exists_returned in H3 as (Hfs3 & Hst3 & Hc3).
  apply remove_if_exists_returned in H4 as (Hfs4 & Hst4 & Hc4).
  apply remove_if_exists_returned in H as (Hfs5 & Hst5 & Hc5).
  cbn in Hfs3, Hst3, Hc3.
  split; [now rewrite Hfs5, Hfs4, Hfs3 |].
  split; [now rewrite Hst5, Hst4, Hst3 |].
  rewrite Hc5, Hc4, Hc3, Hfs4, Hfs3. now rewrite <- !app_assoc.
Qed.

(** X10: every [os.remove] of [_remove_build_files] is guarded by
    [os.path.exists] (lines 86-91).  Whatever the outcome of a run, each
    [os.remove] it called was for the state file, the JSON config or the
    state backup, and for a path that was there when the run began; so
    [os.remove] never fails for a missing file: the run does not raise
    [FileNotFoundError]. *)
Theorem remove_build_files_removes_only_what_exists (w w' : World)
    (o : outcome unit) :
  _remove_build_files K X w = (o, w') ->
  (forall q, o <> Raise (FileNotFoundError q)) /\
  exists evs,
    extends w w' evs /\
    forall p, In (OsRemove p) evs ->
      (p = TF_STATE K \/ p = TF_CONFIG_JSON K \/ p = TF_STATE_BACKUP K)
      /\ path_exists p (fs w) = true.
Proof.
  unfold _remove_build_files, extends.
  rewrite run_bind, state_call_run.
  unfold do_rmtree. rewrite run_bind. cbn. rewrite run_bind. cbn.
  rewrite run_bind. cbn.
  pose proof (rmtree_subseteq (undeletable X) (TF_DIR K) (fs w)) as Hsub.
  set (files := rmtree (undeletable X) (TF_DIR K) (fs w)) in *. clearbody files.
  rewrite run_bind.
  match goal with
  | |- context [remove_if_exists X (TF_STATE K) ?w0] =>
      destruct (remove_if_exists X (TF_STATE K) w0) as [o1 w1] eqn:H1
  end.
  apply remove_if_exists_guard in H1 as (Hsub1 & Hnf1 & evs1 & Hc1 & Hevs1).
  cbn in Hsub1, Hc1, Hevs1.
  assert (Hin1 : forall p, In (OsRemove p) ([State Delete; Rmtree (TF_DIR K)] ++ evs1) ->
                   (p = TF_STATE K \/ p = TF_CONFIG_JSON K \/ p = TF_STATE_BACKUP K)
                   /\ path_exists p (fs w) = true).
  { intros p [H | [H | H]]; [discriminate | discriminate |].
    apply Hevs1 in H as [H Hthere]. injection H as ->.
    split; [now left | exact (path_exists_subseteq _ _ _ Hsub Hthere)]. }
  destruct o1 as [[]|e1].
  2:{ intros H. injection H as <- <-. split; [exact Hnf1 |].
      exists ([State Delete; Rmtree (TF_DIR K)] ++ evs1).
      split; [rewrite Hc1; now rewrite <- !app_assoc | exact Hin1]. }
  rewrite run_bind.
  destruct (remove_if_exists X (TF_CONFIG_JSON K) w1) as [o2 w2] eqn:H2.
  apply remove_if_exists_guard in H2 as (Hsub2 & Hnf2 & evs2 & Hc2 & Hevs2).
  assert (Hin2 : forall p, In (OsRemove p)
                             (([State Delete; Rmtree (TF_DIR K)] ++ evs1) ++ evs2) ->
                   (p = TF_STATE K \/ p = TF_CONFIG_JSON K \/ p = TF_STATE_BACKUP K)
                   /\ path_exists p (fs w) = true).
  { intros p H. apply in_app_or in H as [H | H]; [now apply Hin1 |].
    apply Hevs2 in H as [H Hthere]. injection H as ->.
    split; [right; now left |].
    apply (path_exists_subseteq _ _ _ Hsub).
    exact (path_exists_subseteq _ _ _ Hsub1 Hthere). }
  destruct o2 as [[]|e2].
  2:{ intros H. injection H as <- <-. split; [exact Hnf2 |].
      exists (([State Delete; Rmtree (TF_DIR K)] ++ evs1) ++ evs2).
      split; [rewrite Hc2, Hc1; now rewrite <- !app_assoc | exact Hin2]. }
  intros H3.
  apply remove_if_exists_guard in H3 as (Hsub3 & Hnf3 & evs3 & Hc3 & Hevs3).
  split; [exact Hnf3 |].
  exists ((([State Delete; Rmtree (TF_DIR K)] ++ evs1) ++ evs2) ++ evs3).
  split; [rewrite Hc3, Hc2, Hc1; now rewrite <- !app_assoc |].
  intros p H. apply in_app_or in H as [H | H]; [now apply Hin2 |].
  apply Hevs3 in H as [H Hthere]. injection H as ->.
  split; [right; now right |].
  apply (path_exists_subseteq _ _ _ Hsub).
  apply (path_exists_subseteq _ _ _ Hsub1).
  exact (path_exists_subseteq _ _ _ Hsub2 Hthere).
Qed.


(** X12: [_remove_build_files] can be run again.  After a run that
    returned, a second run returns too, calls no [os.remove] at all,
    and leaves the file system and the state service as the first run
    left them. *)
Theorem remove_build_files_twice (w w' : World) :
  _remove_build_files K X w = (Ret tt, w') ->
  exists w'',
    _remove_build_files K X w' = (Ret tt, w'') /\
    fs w'' = fs w' /\
    state_service w'' = state_service w' /\
    calls w'' = calls w' ++ [State Delete; Rmtree (TF_DIR K)].
Proof.
  intros Hrun.
  pose proof (remove_build_files_removes K X _ _ Hrun)
    as (_ & _ & Hs & Hc & Hb).
  apply remove_build_files_returned in Hrun as (Hfs & Hst & _).
  cbv zeta in Hfs.
  assert (Hfiles : rmtree (undeletable X) (TF_DIR K) (fs w') = fs w').
  { apply (rmtree_again _ _ (fs w)). rewrite Hfs.
    etrans; [apply delete_subseteq |].
    etrans; [apply delete_subseteq | apply delete_subseteq]. }
  unfold _remove_build_files.
  rewrite run_bind, state_call_run.
  unfold do_rmtree. rewrite run_bind. cbn. rewrite run_bind. cbn.
  rewrite run_bind. cbn. rewrite Hfiles.
  rewrite run_bind, remove_if_exists_run. cbn. rewrite Hs.
  rewrite run_bind, remove_if_exists_run. cbn. rewrite Hc.
  rewrite remove_if_exists_run. cbn. rewrite Hb.
  eexists. split; [reflexivity |]. cbn.
  split; [reflexivity |]. split.
  - now rewrite Hst.
  - now rewrite <- !app_assoc.
Qed.

End Teardown.

(** ** The state the facade keeps *)

Section StateRoundTrip.

Context (K : Constants) (X : Externals).

Lemma has_section_set (section section' : string) (kv : list (string * json))
    (s : StateService) :
  StateService.has_section section (StateService.set section' kv s) =
  if decide (section = section') then true else StateService.has_section section s.
Proof.
  unfold StateService.has_section, StateService.set. cbn.
  destruct (decide (section = section')) as [<-|Hne].
  - now rewrite lookup_insert_eq.
  - rewrite lookup_insert_ne; [reflexivity | congruence].
Qed.

Lemma persist_has_backend (u : string) (k : json) (w : World) :
  StateService.has_section (BACKEND K) (state_service (persist K X u k w).2) = true.
Proof.
  rewrite persist_run. cbn [snd state_service].
  change (StateService.has_section (BACKEND K) (StateService.write ?s))
    with (StateService.has_section (BACKEND K) s).
  rewrite !has_section_set.
  rewrite (decide_True (P := BACKEND K = BACKEND K)) by reflexivity.
  now destruct (decide _).
Qed.

Lemma same_config (s s' : StateService) (section key : string) :
  config s = config s' ->
  StateService.has_section section s = StateService.has_section section s' /\
  StateService.get section key s = StateService.get section key s'.
Proof.
  intros H. unfold StateService.has_section, StateService.get. now rewrite H.
Qed.

(** What a [build] that returns leaves behind. *)
Lemma build_returns (provider env : string) (local_backend verbose : bool)
    (w w' : World) :
  build K X provider env local_backend verbose w = (Ret tt, w') ->
  exists w0 u k,
    provision K X provider env local_backend verbose w = (Ret tt, w0) /\
    _parse_config K X w0 = (Ret (u, k), w0) /\
    w' = (persist K X u k w0).2.
Proof.
  rewrite build_run.
  destruct (provision K X provider env local_backend verbose w) as [[[]|e] w0]
    eqn:Hprov; [| discriminate].
  pose proof (parse_config_same_world K X w0) as Hsame.
  destruct (_parse_config K X w0) as [[[u k]|e] w2] eqn:Hparse; [| discriminate].
  cbn in Hsame. subst w2. intros Hrun. exists w0, u, k.
  split; [reflexivity |]. split; [exact Hparse |]. now rewrite Hrun.
Qed.

(** X14: [destroy] asks the backend at the address that [build] stored.
    When a build has returned and a destroy starts from the state it
    wrote (in the same process or loaded again), and its workspace
    preparation returns, the cleanup request goes to the URL that the
    build resolved, followed by [/internal/resources]. *)
Theorem destroy_requests_url_that_build_stored (X' : Externals)
    (provider env : string) (local_backend verbose : bool) (w w1 : World)
    (provider' env' : string) (verbose' : bool) (w1' w2 w3 : World)
    (directory : option string) (o : outcome unit) :
  build K X provider env local_backend verbose w = (Ret tt, w1) ->
  Some (config (state_service w1')) = stored (state_service w1) ->
  prepare_destroy K X' provider' env' verbose' w1' = (Ret directory, w2) ->
  destroy K X' provider' env' verbose' w1' = (o, w3) ->
  exists w0 u k evs,
    provision K X provider env local_backend verbose w = (Ret tt, w0) /\
    _parse_config K X w0 = (Ret (u, k), w0) /\
    extends w1' w3 evs /\
    In (RequestsDelete (u +:+ "/internal/resources")) evs.
Proof.
  intros Hbuild Hloaded Hprep Hdestroy.
  destruct (build_returns _ _ _ _ _ _ Hbuild) as (w0 & u & k & Hprov & Hparse & ->).
  destruct (persist_state K X u k w0) as (Hurl & _ & _ & Hstored).
  assert (Hconfig : config (state_service w1')
                    = config (state_service (persist K X u k w0).2))
    by congruence.
  destruct (same_config _ _ (BACKEND K) "url" Hconfig) as (Hsame_section & Hsame_url).
  assert (Hsection : StateService.has_section (BACKEND K) (state_service w1') = true)
    by (rewrite Hsame_section; apply persist_has_backend).
  assert (Hget : cleanup_url K X' (state_service w1') = u +:+ "/internal/resources")
    by (unfold cleanup_url; now rewrite Hsame_url, Hurl).
  destruct (destroy_calls K X' _ _ _ _ _ _ _ _ Hprep Hdestroy)
    as (prep & rest & Hcalls & _).
  rewrite Hsection, Hget in Hcalls.
  exists w0, u, k. eexists. split; [exact Hprov |]. split; [exact Hparse |].
  split; [exact Hcalls |].
  apply in_or_app. right. now left.
Qed.

(** X15: the calls of an [init] that returns (lines 46-51): [create]
    only when [is_created] answered that the state is not there, then the
    BACKEND section set to the two arguments as [url] and [token], then
    [write]; nothing else is called. *)
Theorem init_records_backend (url0 token0 : json) (w w' : World) :
  init K url0 token0 w = (Ret tt, w') ->
  calls w' =
    calls w
    ++ (if StateService.is_created (state_service w) then [] else [State Create])
    ++ [State (SetSection (BACKEND K) [("url", url0); ("token", token0)]);
        State Write].
Proof.
  unfold init, read_state. rewrite run_bind. cbn.
  destruct (StateService.is_created (state_service w)) eqn:Hcreated; cbn.
  - rewrite run_bind. cbn. rewrite run_bind, state_call_run. cbn.
    rewrite state_call_run. cbn.
    intros H. injection H as <-. cbn. now rewrite <- app_assoc.
  - rewrite run_bind, state_call_run. cbn. rewrite run_bind, state_call_run. cbn.
    rewrite state_call_run. cbn.
    intros H. injection H as <-. cbn. now rewrite <- !app_assoc.
Qed.

End StateRoundTrip.

(** ** These properties on the sample setting *)

(** A local provider in the fresh checkout: the check and the engine's
    init, nothing else, although a local backend is asked for. *)
Lemma tf_init_local_provider_witness :
  _tf_init Sample.constants Sample.externals "DOCKER" "dev" true false Sample.checkout
  = (Ret (Some "infra/docker"),
     {| fs := <[".terraform" := Dir]>
                (<[".terraform/plugins" := Dir]> (fs Sample.checkout));
        state_service := state_service Sample.checkout;
        calls := [CheckEnvironment "DOCKER"; Tf (TfInit (Some "infra/docker"))] |}).
Proof.
  rewrite (tf_init_local_provider_only_inits Sample.constants Sample.externals
             "DOCKER" "dev" true false Sample.checkout eq_refl eq_refl).
  reflexivity.
Defined.

(** A cloud provider with a local backend, in the fresh checkout. *)
Lemma tf_init_cloud_call_sequence_witness :
  calls (_tf_init Sample.constants Sample.externals "AWS" "dev" true false
           Sample.checkout).2
  = [CheckEnvironment "AWS";
     CopyTree "infra/aws/dev" "infra/aws/__working_dev";
     ShutilCopy (Some "infra/aws/local.tf") "infra/aws/__working_dev";
     Tf (TfInit (Some "infra/aws/__working_dev"));
     Tf (ExistsWorkspace "infra/aws/__working_dev" "dev");
     Tf (NewWorkspace "infra/aws/__working_dev" "dev");
     Tf (SelectWorkspace "infra/aws/__working_dev" "dev")].
Proof.
  destruct (tf_init_cloud_call_sequence Sample.constants Sample.externals
              "AWS" "dev" true false Sample.checkout
              (_tf_init Sample.constants Sample.externals "AWS" "dev" true false
                 Sample.checkout).2
              (Some "infra/aws/__working_dev") eq_refl)
    as (_ & _ & known & files & Hknown & Hcalls).
  - vm_compute. reflexivity.
  - injection Hknown as <-. rewrite Hcalls. reflexivity.
Defined.

(** A provider the registry does not know. *)
Lemma tf_init_unknown_provider_witness :
  exists after,
    calls (_tf_init Sample.constants Sample.externals "AZURE" "dev" false false
             Sample.checkout).2
    = [CheckEnvironment "AZURE"; CopyTree "None/dev" "None/__working_dev"] ++ after.
Proof.
  destruct (tf_init_unknown_provider_uses_none_path Sample.constants
              Sample.externals "AZURE" "dev" false Sample.checkout
              (_tf_init Sample.constants Sample.externals "AZURE" "dev" false false
                 Sample.checkout).2
              (_tf_init Sample.constants Sample.externals "AZURE" "dev" false false
                 Sample.checkout).1)
    as (after & Hcalls & _).
  - reflexivity.
  - reflexivity.
  - reflexivity.
  - now destruct (_tf_init _ _ _ _ _ _ _).
  - exists after. exact Hcalls.
Defined.


(** A build that fails at plan has called no apply. *)
Example build_failing_plan_calls_no_apply :
  calls (build Sample.constants
           (Sample.externals_of Sample.credentials
              (fun c files => match c with
                              | Plan _ _ => None
                              | _ => Sample.engine Sample.artifact c files
                              end)
              (fun _ => Ret 200))
           "DOCKER" "dev" false false Sample.checkout).2
  = [Tf (SetVerbose false); CheckEnvironment "DOCKER";
     Tf (TfInit (Some "infra/docker"));
     Tf (Plan (Some "infra/docker") "--var config_dir=/home/op/project ")].
Proof. vm_compute. reflexivity. Qed.

(** An artifact that names an ip and no hostname. *)
Lemma parse_config_falls_back_to_ip_witness :
  _parse_config Sample.constants Sample.externals
    (Sample.deployed_with (Sample.artifact_of [JObj [("ip", JStr "10.0.0.7")]]))
  = (Ret ("http://10.0.0.7:8080/api", JStr "kube"),
     Sample.deployed_with (Sample.artifact_of [JObj [("ip", JStr "10.0.0.7")]])).
Proof.
  apply (parse_config_falls_back_to_ip Sample.constants Sample.externals
           (Sample.deployed_with (Sample.artifact_of [JObj [("ip", JStr "10.0.0.7")]]))
           (Sample.artifact_of [JObj [("ip", JStr "10.0.0.7")]])
           [("ip", JStr "10.0.0.7")] [] (JStr "10.0.0.7") 8080
           (JStr "/api") (JStr "kube"));
    reflexivity.
Defined.

(** An empty [backend_domain] gives [IndexError]. *)
Example parse_config_empty_domain_list :
  _parse_config Sample.constants Sample.externals
    (Sample.deployed_with (Sample.artifact_of []))
  = (Raise IndexError, Sample.deployed_with (Sample.artifact_of [])).
Proof. reflexivity. Qed.

(** [GCP] with its credentials file set. *)
Lemma get_vars_gcp_witness :
  _get_vars Sample.constants
    (Sample.externals_of {[ "GOOGLE_APPLICATION_CREDENTIALS" := "/keys/gcp.json" ]}
       (Sample.engine Sample.artifact) (fun _ => Ret 200))
    "GCP"
  = "--var config_dir=/home/op/project --var credentials_path=/keys/gcp.json".
Proof.
  destruct (get_vars_gcp Sample.constants
              (Sample.externals_of
                 {[ "GOOGLE_APPLICATION_CREDENTIALS" := "/keys/gcp.json" ]}
                 (Sample.engine Sample.artifact) (fun _ => Ret 200))
              (Sample.externals_of
                 {[ "GOOGLE_APPLICATION_CREDENTIALS" := "/keys/gcp.json";
                    "AWS_ACCESS_KEY_ID" := "abc" ]}
                 (Sample.engine Sample.artifact) (fun _ => Ret 200)))
    as (Hgcp & _).
  - discriminate.
  - reflexivity.
  - reflexivity.
  - change (GCP Sample.constants) with "GCP" in Hgcp. rewrite Hgcp. reflexivity.
Defined.

(** The teardown of the deployed checkout: [os.remove] is called for the
    state file and the JSON config, which are there, and not for the state
    backup, which is not. *)
Lemma remove_build_files_removes_only_what_exists_witness :
  exists evs,
    calls (_remove_build_files Sample.constants Sample.externals Sample.deployed).2
    = calls Sample.deployed ++ evs /\
    (In (OsRemove "terraform.tfstate") evs ->
     path_exists "terraform.tfstate" (fs Sample.deployed) = true) /\
    path_exists "terraform.tfstate.backup" (fs Sample.deployed) = false /\
    ~ In (OsRemove "terraform.tfstate.backup") evs.
Proof.
  destruct (remove_build_files_removes_only_what_exists Sample.constants
              Sample.externals Sample.deployed
              (_remove_build_files Sample.constants Sample.externals Sample.deployed).2
              (_remove_build_files Sample.constants Sample.externals Sample.deployed).1)
    as (_ & evs & Hext & Hguard).
  - now destruct (_remove_build_files _ _ _).
  - exists evs. split; [exact Hext |].
    split; [intros H; exact (proj2 (Hguard _ H)) |].
    split; [vm_compute; reflexivity |].
    intros H. apply Hguard in H as [_ H]. vm_compute in H. discriminate H.
Defined.

(** A directory where the state file is expected, or a state file that
    cannot be deleted, makes the teardown raise, with the later files
    left in place; the deployed checkout has neither. *)
Example remove_build_files_raises :
  (_remove_build_files Sample.constants Sample.externals
     {| fs := {[ "terraform.tfstate" := Dir; "config.json" := File None ]};
        state_service := state_service Sample.deployed;
        calls := [] |})
  = (Raise (IsADirectoryError "terraform.tfstate"),
     {| fs := {[ "terraform.tfstate" := Dir; "config.json" := File None ]};
        state_service := StateService.delete (state_service Sample.deployed);
        calls := [State Delete; Rmtree ".terraform";
                  OsRemove "terraform.tfstate"] |})
  /\ (_remove_build_files Sample.constants
        (Sample.externals_of Sample.credentials (Sample.engine Sample.artifact)
           (fun _ => Ret 200))
        Sample.deployed).1 = Ret tt.
Proof. split; vm_compute; reflexivity. Qed.


(** The teardown of the deployed checkout, run twice. *)
Lemma remove_build_files_twice_witness :
  exists w'',
    _remove_build_files Sample.constants Sample.externals
      (_remove_build_files Sample.constants Sample.externals Sample.deployed).2
    = (Ret tt, w'') /\
    fs w'' = fs (_remove_build_files Sample.constants Sample.externals
                   Sample.deployed).2.
Proof.
  destruct (remove_build_files_twice Sample.constants Sample.externals Sample.deployed
              (_remove_build_files Sample.constants Sample.externals Sample.deployed).2)
    as (w'' & Hrun & Hfs & _).
  - vm_compute. reflexivity.
  - exists w''. split; assumption.
Defined.

(** The same where the tree at [.terraform] cannot be removed: the second
    run leaves it as the first did. *)
Example remove_build_files_twice_stuck_tree :
  let once := (_remove_build_files Sample.constants Sample.externals_stuck_tree
                 Sample.deployed).2 in
  let twice := (_remove_build_files Sample.constants Sample.externals_stuck_tree
                  once).2 in
  fs once !! ".terraform/plugins" = Some Dir /\ fs twice = fs once.
Proof. split; vm_compute; reflexivity. Qed.

(** [init] in the fresh checkout creates the state; in the deployed one it
    does not. *)
Lemma init_records_backend_witness :
  calls (init Sample.constants (JStr "http://h:8080/api") (JStr "t")
           Sample.checkout).2
  = [State Create;
     State (SetSection "backend"
              [("url", JStr "http://h:8080/api"); ("token", JStr "t")]);
     State Write]
  /\ calls (init Sample.constants (JStr "http://h:8080/api") (JStr "t")
              Sample.deployed).2
     = [State (SetSection "backend"
                 [("url", JStr "http://h:8080/api"); ("token", JStr "t")]);
        State Write].
Proof.
  split.
  - rewrite (init_records_backend Sample.constants (JStr "http://h:8080/api")
               (JStr "t") Sample.checkout
               (init Sample.constants (JStr "http://h:8080/api") (JStr "t")
                  Sample.checkout).2);
      vm_compute; reflexivity.
  - rewrite (init_records_backend Sample.constants (JStr "http://h:8080/api")
               (JStr "t") Sample.deployed
               (init Sample.constants (JStr "http://h:8080/api") (JStr "t")
                  Sample.deployed).2);
      vm_compute; reflexivity.
Defined.

(** A build of the fresh checkout, then a destroy in the world it left. *)
Lemma destroy_requests_url_that_build_stored_witness :
  exists u evs,
    calls (destroy Sample.constants Sample.externals "AWS" "dev" false
             (build Sample.constants Sample.externals "AWS" "dev" false false
                Sample.checkout).2).2
    = calls (build Sample.constants Sample.externals "AWS" "dev" false false
               Sample.checkout).2 ++ evs /\
    In (RequestsDelete (u +:+ "/internal/resources")) evs.
Proof.
  set (w1 := (build Sample.constants Sample.externals "AWS" "dev" false false
                Sample.checkout).2).
  destruct (destroy_requests_url_that_build_stored Sample.constants Sample.externals
              Sample.externals "AWS" "dev" false false Sample.checkout w1
              "AWS" "dev" false w1
              (prepare_destroy Sample.constants Sample.externals "AWS" "dev" false w1).2
              (destroy Sample.constants Sample.externals "AWS" "dev" false w1).2
              (Some "infra/aws/__working_dev")
              (destroy Sample.constants Sample.externals "AWS" "dev" false w1).1)
    as (w0 & u & k & evs & _ & _ & Hext & Hin).
  - vm_compute. reflexivity.
  - vm_compute. reflexivity.
  - vm_compute. reflexivity.
  - now destruct (destroy _ _ _ _ _ _).
  - exists u, evs. split; [exact Hext | exact Hin].
Defined.
